(** * Food-Diary: the per-day record store and the monthly analytics

    A shallow embedding of the store and analytics code of the Food-Diary
    application: the daily log screen ([DailyLog]: [loadDayData],
    [saveDayData], [handleSaveEntry], [handleDeleteFood] and its two
    effects), the entry dialog's [handleSave], and the statistics screen
    ([Stats]: [calculateMoodAverages], [loadChartDataForMonth],
    [handleMonthChange]).

    Conventions of the model.
    - A JavaScript [Date] is a civil date with a time of day, in the local
      calendar; [getTime] gives its millisecond count, and the relational
      operators on dates compare these counts, as [valueOf] does.
    - [AsyncStorage] is a finite map from keys to stored values.  The code
      writes a value with [JSON.stringify] and reads it back with
      [JSON.parse] at the declared interface [DayData]; the model keeps, for
      each key, the parsed value at that interface.  A stored text is never
      the empty string, so the test [if (data)] is the presence test.
    - Numbers that the code only adds and counts are integers ([Z]); the
      quotients it forms (the averages) are exact rationals, kept reduced.
    - [toLowerCase], [trim] and the white space of [parseInt] are taken on
      the ASCII characters.
    - A JavaScript object used as a dictionary is a [gmap] on its own keys. *)

From Stdlib Require Import ZArith QArith Lia Lqa Ascii String List.
From stdpp Require Import gmap strings list fin_maps sorting.

Local Open Scope Z_scope.

(** ** Dates (the part of [Date] and date-fns the screens use) *)

Record Date := mkDate {
  year : Z;
  month : Z;        (* 1..12, as [format] prints it *)
  day : Z;          (* 1..daysInMonth *)
  tod : Z           (* milliseconds since midnight, 0..86399999 *)
}.

Definition msPerDay : Z := 86400000.

Definition isLeapYear (y : Z) : bool :=
  (y mod 4 =? 0) && (negb (y mod 100 =? 0) || (y mod 400 =? 0)).

Definition daysInMonth (y m : Z) : Z :=
  if m =? 2 then (if isLeapYear y then 29 else 28)
  else if (m =? 4) || (m =? 6) || (m =? 9) || (m =? 11) then 30
  else 31.

Definition validDate (d : Date) : Prop :=
  1 <= month d <= 12 /\ 1 <= day d <= daysInMonth (year d) (month d)
  /\ 0 <= tod d < msPerDay.

(** Days since 1970-01-01 of a civil date. *)
Definition daysFromCivil (y m d : Z) : Z :=
  let y' := if m <=? 2 then y - 1 else y in
  let era := y' / 400 in
  let yoe := y' - era * 400 in
  let mp := if m <=? 2 then m + 9 else m - 3 in
  let doy := (153 * mp + 2) / 5 + d - 1 in
  let doe := yoe * 365 + yoe / 4 - yoe / 100 + doy in
  era * 146097 + doe - 719468.

Definition getTime (d : Date) : Z :=
  daysFromCivil (year d) (month d) (day d) * msPerDay + tod d.

(** [a <= b] and [a > b] on dates compare the millisecond counts. *)
Definition Date_leb (a b : Date) : bool := getTime a <=? getTime b.
Definition Date_gtb (a b : Date) : bool := getTime b <? getTime a.

Definition startOfMonth (d : Date) : Date :=
  mkDate (year d) (month d) 1 0.

Definition endOfMonth (d : Date) : Date :=
  mkDate (year d) (month d) (daysInMonth (year d) (month d)) (msPerDay - 1).

Definition nextDay (d : Date) : Date :=
  if day d <? daysInMonth (year d) (month d)
  then mkDate (year d) (month d) (day d + 1) (tod d)
  else if month d <? 12
       then mkDate (year d) (month d + 1) 1 (tod d)
       else mkDate (year d + 1) 1 1 (tod d).

Definition prevDay (d : Date) : Date :=
  if 1 <? day d
  then mkDate (year d) (month d) (day d - 1) (tod d)
  else if 1 <? month d
       then mkDate (year d) (month d - 1)
                   (daysInMonth (year d) (month d - 1)) (tod d)
       else mkDate (year d - 1) 12 31 (tod d).

(** [addDays] sets the day of the month to [getDate () + amount]; the
    [Date] object carries the overflow into the month and the year. *)
Definition addDays (d : Date) (amount : Z) : Date :=
  if 0 <=? amount
  then Nat.iter (Z.to_nat amount) nextDay d
  else Nat.iter (Z.to_nat (- amount)) prevDay d.

Definition subDays (d : Date) (amount : Z) : Date := addDays d (- amount).

(** [addMonths] keeps the day of the month unless the target month is
    shorter, in which case it takes that month's last day; the time of day
    is kept. *)
Definition addMonths (d : Date) (amount : Z) : Date :=
  let idx := year d * 12 + (month d - 1) + amount in
  let y' := idx / 12 in
  let m' := idx mod 12 + 1 in
  mkDate y' m' (Z.min (day d) (daysInMonth y' m')) (tod d).

Definition subMonths (d : Date) (amount : Z) : Date := addMonths d (- amount).

(** [getHours], [getMinutes], [setHours], [setMinutes] on the time of
    day, for hours in 0..23 and minutes in 0..59. *)
Definition getHours (d : Date) : Z := tod d / 3600000.
Definition getMinutes (d : Date) : Z := (tod d / 60000) mod 60.
Definition setHours (h : Z) (d : Date) : Date :=
  mkDate (year d) (month d) (day d) (h * 3600000 + tod d mod 3600000).
Definition setMinutes (m : Z) (d : Date) : Date :=
  mkDate (year d) (month d) (day d)
         (tod d / 3600000 * 3600000 + m * 60000 + tod d mod 60000).

(** *** Formatting *)

Definition digit (n : Z) : string :=
  String (ascii_of_nat (48 + Z.to_nat (n mod 10))) EmptyString.

Definition pad2 (n : Z) : string := digit (n / 10) +:+ digit n.

Definition pad4 (n : Z) : string :=
  digit (n / 1000) +:+ digit (n / 100) +:+ digit (n / 10) +:+ digit n.

(** [format (d, 'yyyy-MM-dd')] *)
Definition format_ymd (d : Date) : string :=
  pad4 (year d) +:+ "-" +:+ pad2 (month d) +:+ "-" +:+ pad2 (day d).

(** [format (d, 'dd')] *)
Definition format_dd (d : Date) : string := pad2 (day d).

(** [format (d, 'yyyy-MM')] *)
Definition format_ym (d : Date) : string :=
  pad4 (year d) +:+ "-" +:+ pad2 (month d).

(** [eachDayOfInterval], for [start] not after [finish]: the start of
    every day from the day of [start] to the day of [finish]. *)
Definition eachDayOfInterval (start finish : Date) : list Date :=
  let first := mkDate (year start) (month start) (day start) 0 in
  let n := daysFromCivil (year finish) (month finish) (day finish)
           - daysFromCivil (year start) (month start) (day start) + 1 in
  map (fun i => Nat.iter i nextDay first) (seq 0 (Z.to_nat n)).

(** [String.prototype.toLowerCase], on the ASCII letters. *)
Definition lower_ascii (c : ascii) : ascii :=
  let n := nat_of_ascii c in
  if (Nat.leb 65 n && Nat.leb n 90)%bool then ascii_of_nat (n + 32) else c.

Fixpoint toLowerCase (s : string) : string :=
  match s with
  | EmptyString => EmptyString
  | String c s' => String (lower_ascii c) (toLowerCase s')
  end.

(** White space, on the ASCII characters. *)
Definition isWhitespace (c : ascii) : bool :=
  let n := nat_of_ascii c in
  (Nat.eqb n 32 || (Nat.leb 9 n && Nat.leb n 13))%bool.

(** [!s.trim ()]: the string is empty once its white space is trimmed. *)
Fixpoint blank (s : string) : bool :=
  match s with
  | EmptyString => true
  | String c s' => isWhitespace c && blank s'
  end.

Definition isDigit (c : ascii) : bool :=
  let n := nat_of_ascii c in (Nat.leb 48 n && Nat.leb n 57)%bool.

Fixpoint skipWhitespace (s : string) : string :=
  match s with
  | String c s' => if isWhitespace c then skipWhitespace s' else s
  | EmptyString => EmptyString
  end.

Fixpoint digitsValue (acc : Z) (s : string) : Z :=
  match s with
  | String c s' =>
      if isDigit c
      then digitsValue (acc * 10 + Z.of_nat (nat_of_ascii c - 48)) s'
      else acc
  | EmptyString => acc
  end.

(** [parseInt (s, 10)]: leading white space, an optional sign and the
    longest run of decimal digits; [None] is [NaN]. *)
Definition parseInt (s : string) : option Z :=
  let s1 := skipWhitespace s in
  let '(sign, s2) :=
    match s1 with
    | String "-"%char rest => (-1, rest)
    | String "+"%char rest => (1, rest)
    | _ => (1, s1)
    end in
  match s2 with
  | String c _ => if isDigit c then Some (sign * digitsValue 0 s2) else None
  | EmptyString => None
  end.

(** [text.replace (/[^0-9]/g, '')]: the digits of the text. *)
Fixpoint digitsOnly (s : string) : string :=
  match s with
  | EmptyString => EmptyString
  | String c s' => if isDigit c then String c (digitsOnly s') else digitsOnly s'
  end.

(** [String.prototype.includes] *)
Fixpoint includes (s sub : string) : bool :=
  String.prefix sub s
  || match s with
     | EmptyString => false
     | String _ s' => includes s' sub
     end.



(** [Array.prototype.sort] with a comparator: [before x y] says that the
    comparator is not positive on [(x, y)].  The sort is stable: each
    element, taken from the right, goes before the first one it may
    precede. *)
Fixpoint stableInsert {A} (before : A -> A -> bool) (x : A) (l : list A)
    : list A :=
  match l with
  | [] => [x]
  | y :: l' => if before x y then x :: y :: l'
               else y :: stableInsert before x l'
  end.

Definition stableSort {A} (before : A -> A -> bool) (l : list A) : list A :=
  foldr (stableInsert before) [] l.

(** [String.prototype.startsWith] *)
Definition startsWith (s p : string) : bool := String.prefix p s.

(** ** The stored records *)

Module Stored.

Record FoodEntry := mkFoodEntry {
  id : string;
  name : string;
  time : Z
}.

Record DayData := mkDayData {
  foodEntries : list FoodEntry;
  workoutDone : bool;
  workoutNote : string;
  moodRating : Z;
  moodNote : string
}.

End Stored.
Import Stored.

(** [AsyncStorage]: one value per key. *)
Abbreviation Storage := (gmap string DayData).

(** Truthiness of a number and of an array. *)
Definition truthy (n : Z) : bool := negb (n =? 0).
Definition truthy_array {A} (l : list A) : bool := true.

(** [Array.prototype.sort] with the comparator [(a, b) => a.time - b.time]:
    the sort is stable, so it is the insertion of each element before the
    first one that is not earlier, taken from the right. *)
Fixpoint insertByTime (x : FoodEntry) (l : list FoodEntry) : list FoodEntry :=
  match l with
  | [] => [x]
  | y :: l' => if time x <=? time y then x :: y :: l'
               else y :: insertByTime x l'
  end.

Definition sortByTime (l : list FoodEntry) : list FoodEntry :=
  foldr insertByTime [] l.

(** ** The entry dialog *)

Module AddEntryModal.

Record State := mkState {
  name : string;
  useCustomTime : bool;
  hours : string;
  minutes : string;
  error : string
}.

(** What [handleSave] does: it calls [onSave] with the entry and closes, or
    it sets the error and returns. *)
Inductive Outcome :=
| Saved (entryName : string) (entryTime : Date)
| Rejected (message : string).

(** [now] is the [new Date ()] of the handler. *)
Definition handleSave (now : Date) (st : State) : Outcome :=
  if blank (name st) then Rejected "Please enter a food name"
  else
    if useCustomTime st then
      match parseInt (hours st), parseInt (minutes st) with
      | Some currentHours, Some currentMinutes =>
          if (currentHours <? 0) || (23 <? currentHours)
             || (currentMinutes <? 0) || (59 <? currentMinutes)
          then Rejected "Please enter valid time"
          else Saved (name st)
                     (setMinutes currentMinutes (setHours currentHours now))
      | _, _ => Rejected "Please enter valid time"
      end
    else Saved (name st) now.

(** The effect on [visible] and [initialEntry], when the dialog becomes
    visible: [now] is [new Date ()] and [initialEntry] holds the name of
    the entry and [new Date (initialEntry.time)].  The hours and the
    minutes of a date have at most two digits, so [padStart (2, '0')] of
    their decimal form is [pad2]. *)
Definition onVisible (now : Date) (initialEntry : option (string * Date))
    (st : State) : State :=
  match initialEntry with
  | Some (entryName, date) =>
      mkState entryName true (pad2 (getHours date)) (pad2 (getMinutes date)) ""
  | None =>
      mkState "" false (pad2 (getHours now)) (pad2 (getMinutes now)) ""
  end.

(** [value === '' || (parseInt (value) >= 0 && parseInt (value) <= max)] *)
Definition acceptedField (value : string) (max : Z) : bool :=
  String.eqb value ""
  || match parseInt value with
     | Some n => (0 <=? n) && (n <=? max)
     | None => false
     end.

Definition handleTimeChange (text : string) (isHours : bool) (st : State)
    : State :=
  let value := digitsOnly text in
  if isHours then
    if acceptedField value 23
    then mkState (name st) (useCustomTime st) value (minutes st) (error st)
    else st
  else
    if acceptedField value 59
    then mkState (name st) (useCustomTime st) (hours st) value (error st)
    else st.

(** What the user can do in the dialog; [now] is the [new Date ()] of
    [handleSave]. *)
Inductive Event :=
| ChangeName (text : string)
| ToggleCustomTime
| ChangeTime (text : string) (isHours : bool)
| PressSave (now : Date).

(** One event.  A save that is refused sets the error; a save that goes
    through leaves the fields and closes the dialog. *)
Definition step (st : State) (ev : Event) : State :=
  match ev with
  | ChangeName text =>
      mkState text (useCustomTime st) (hours st) (minutes st) ""
  | ToggleCustomTime =>
      mkState (name st) (negb (useCustomTime st)) (hours st) (minutes st)
              (error st)
  | ChangeTime text isHours => handleTimeChange text isHours st
  | PressSave now =>
      match handleSave now st with
      | Rejected message =>
          mkState (name st) (useCustomTime st) (hours st) (minutes st) message
      | Saved _ _ => st
      end
  end.

(** The states of a dialog that became visible at a valid date, for a new
    entry or for an entry with a valid date. *)
Inductive reachable : State -> Prop :=
| reachable_visible now initialEntry st0 :
    validDate now ->
    (forall entryName date,
        initialEntry = Some (entryName, date) -> validDate date) ->
    reachable (onVisible now initialEntry st0)
| reachable_step st ev :
    reachable st -> reachable (step st ev).

End AddEntryModal.

(** ** The daily log screen *)

Module DailyLog.

Record State := mkState {
  selectedDate : Date;
  workoutDone : bool;
  workoutNote : string;
  moodRating : Z;
  moodNote : string;
  foodEntries : list FoodEntry;
  modalVisible : bool;
  editingEntry : option FoodEntry
}.

(** The state of a freshly mounted screen; [now] is [new Date ()]. *)
Definition initialState (now : Date) : State :=
  mkState now false "" 5 "" [] false None.

Definition getStorageKey (date : Date) : string :=
  "dayData_" +:+ format_ymd date.

Definition loadDayData (store : Storage) (date : Date) (st : State) : State :=
  let key := getStorageKey date in
  match store !! key with
  | Some dayData =>
      mkState (selectedDate st)
              (Stored.workoutDone dayData) (Stored.workoutNote dayData)
              (Stored.moodRating dayData) (Stored.moodNote dayData)
              (Stored.foodEntries dayData)
              (modalVisible st) (editingEntry st)
  | None =>
      mkState (selectedDate st) false "" 5 "" []
              (modalVisible st) (editingEntry st)
  end.

Definition saveDayData (store : Storage) (st : State) : Storage :=
  let key := getStorageKey (selectedDate st) in
  let dayData := mkDayData (foodEntries st) (workoutDone st) (workoutNote st)
                           (moodRating st) (moodNote st) in
  <[key := dayData]> store.

Definition setSelectedDate (d : Date) (st : State) : State :=
  mkState d (workoutDone st) (workoutNote st) (moodRating st) (moodNote st)
          (foodEntries st) (modalVisible st) (editingEntry st).

Definition setFoodEntries (l : list FoodEntry) (st : State) : State :=
  mkState (selectedDate st) (workoutDone st) (workoutNote st)
          (moodRating st) (moodNote st) l (modalVisible st) (editingEntry st).

Definition setEditingEntry (e : option FoodEntry) (st : State) : State :=
  mkState (selectedDate st) (workoutDone st) (workoutNote st)
          (moodRating st) (moodNote st) (foodEntries st) (modalVisible st) e.

Definition setMoodRating (n : Z) (st : State) : State :=
  mkState (selectedDate st) (workoutDone st) (workoutNote st)
          n (moodNote st) (foodEntries st) (modalVisible st)
          (editingEntry st).

Definition handleDateChange (days : Z) (st : State) : State :=
  setSelectedDate
    (if 0 <? days then addDays (selectedDate st) days
     else subDays (selectedDate st) (Z.abs days)) st.

Definition handleDeleteFood (id0 : string) (st : State) : State :=
  setFoodEntries
    (filter (fun entry => id entry ≠ id0) (foodEntries st)) st.

Definition handleEditFood (entry : FoodEntry) (st : State) : State :=
  mkState (selectedDate st) (workoutDone st) (workoutNote st)
          (moodRating st) (moodNote st) (foodEntries st) true (Some entry).

(** [entryName] and [entryTime] are the fields of the dialog's entry;
    [nowId] is [Date.now ().toString ()]. *)
Definition handleSaveEntry (entryName : string) (entryTime : Date)
    (nowId : string) (st : State) : State :=
  let adjustedTime :=
    setMinutes (getMinutes entryTime)
      (setHours (getHours entryTime) (selectedDate st)) in
  match editingEntry st with
  | Some editing =>
      setEditingEntry None
        (setFoodEntries
           (map (fun item =>
                   if decide (id item = id editing)
                   then mkFoodEntry (id item) entryName (getTime adjustedTime)
                   else item)
                (foodEntries st)) st)
  | None =>
      let newEntry := mkFoodEntry nowId entryName (getTime adjustedTime) in
      setFoodEntries (sortByTime (foodEntries st ++ [newEntry])) st
  end.

(** The two effects.  The first, on [selectedDate], calls [loadDayData];
    the second, on the five values and on [saveDayData] (which changes
    with [selectedDate]), calls [saveDayData].  After a render that
    changed [selectedDate] both run, in this order: the read of
    [loadDayData] is issued before the write of [saveDayData], so it sees
    the store as it was; when it completes it sets the five values
    ([foodEntries] to a new array), and the second effect runs again. *)
Definition effectsAfterDateChange (store : Storage) (st : State)
    : Storage * State :=
  let loaded := loadDayData store (selectedDate st) st in
  let store1 := saveDayData store st in
  let store2 := saveDayData store1 loaded in
  (store2, loaded).

(** Mounting the screen, and moving to another day. *)
Definition mount (store : Storage) (now : Date) : Storage * State :=
  effectsAfterDateChange store (initialState now).

Definition visit (store : Storage) (days : Z) (st : State)
    : Storage * State :=
  effectsAfterDateChange store (handleDateChange days st).

Definition handleCloseModal (st : State) : State :=
  mkState (selectedDate st) (workoutDone st) (workoutNote st)
          (moodRating st) (moodNote st) (foodEntries st) false None.

(** The values the mood selector offers. *)
Definition MOOD_OPTIONS : list Z := map (fun i => Z.of_nat i + 1) (seq 0 10).

(** [handleMoodChange] sets the rating (and, after a delay, makes the
    statistics screen compute again). *)
Definition handleMoodChange (newMoodRating : Z) (st : State) : State :=
  setMoodRating newMoodRating st.

Definition setWorkoutDone (b : bool) (st : State) : State :=
  mkState (selectedDate st) b (workoutNote st) (moodRating st) (moodNote st)
          (foodEntries st) (modalVisible st) (editingEntry st).

Definition setWorkoutNote (text : string) (st : State) : State :=
  mkState (selectedDate st) (workoutDone st) text (moodRating st) (moodNote st)
          (foodEntries st) (modalVisible st) (editingEntry st).

Definition setMoodNote (text : string) (st : State) : State :=
  mkState (selectedDate st) (workoutDone st) (workoutNote st) (moodRating st)
          text (foodEntries st) (modalVisible st) (editingEntry st).

Definition setModalVisible (b : bool) (st : State) : State :=
  mkState (selectedDate st) (workoutDone st) (workoutNote st) (moodRating st)
          (moodNote st) (foodEntries st) b (editingEntry st).

(** What the user can do on the screen. *)
Inductive Event :=
| PressPreviousDay
| PressNextDay
| PressAdd
| PressEdit (item : FoodEntry)
| PressDelete (itemId : string)
| ToggleWorkout
| ChangeWorkoutNote (text : string)
| SelectMood (value : Z)
| ChangeMoodNote (text : string)
| DialogSave (entryName : string) (entryTime : Date) (nowId : string)
| DialogClose.

(** The screen shows an edit and a delete button for each of its entries,
    the workout note only when the workout is done, the mood selector
    offers [MOOD_OPTIONS], and the dialog acts only while it is visible. *)
Definition enabled (st : State) (ev : Event) : Prop :=
  match ev with
  | PressEdit item => In item (foodEntries st)
  | PressDelete itemId => exists item, In item (foodEntries st) /\ id item = itemId
  | ChangeWorkoutNote _ => workoutDone st = true
  | SelectMood value => In value MOOD_OPTIONS
  | DialogSave _ _ _ => modalVisible st = true
  | DialogClose => modalVisible st = true
  | _ => True
  end.

(** The save effect after a state update: it runs when one of the five
    values changed (a new array is always a change). *)
Definition saveWhen (changed : bool) (store : Storage) (st : State)
    : Storage * State :=
  (if changed then saveDayData store st else store, st).

(** One event, with the effects that follow it.  The dialog calls
    [onSave] and then [onClose]. *)
Definition step (store : Storage) (st : State) (ev : Event)
    : Storage * State :=
  match ev with
  | PressPreviousDay => effectsAfterDateChange store (handleDateChange (-1) st)
  | PressNextDay => effectsAfterDateChange store (handleDateChange 1 st)
  | PressAdd => (store, setModalVisible true st)
  | PressEdit item => (store, handleEditFood item st)
  | PressDelete itemId => saveWhen true store (handleDeleteFood itemId st)
  | ToggleWorkout =>
      saveWhen true store (setWorkoutDone (negb (workoutDone st)) st)
  | ChangeWorkoutNote text =>
      saveWhen (negb (String.eqb text (workoutNote st))) store
               (setWorkoutNote text st)
  | SelectMood value =>
      saveWhen (negb (value =? moodRating st)) store
               (handleMoodChange value st)
  | ChangeMoodNote text =>
      saveWhen (negb (String.eqb text (moodNote st))) store
               (setMoodNote text st)
  | DialogSave entryName entryTime nowId =>
      saveWhen true store
               (handleCloseModal (handleSaveEntry entryName entryTime nowId st))
  | DialogClose => (store, handleCloseModal st)
  end.

(** The stores and states of a screen mounted at [now] over [store0]. *)
Inductive reachable (store0 : Storage) (now : Date)
    : Storage -> State -> Prop :=
| reachable_mount :
    reachable store0 now (mount store0 now).1 (mount store0 now).2
| reachable_step store st ev :
    reachable store0 now store st ->
    enabled st ev ->
    reachable store0 now (step store st ev).1 (step store st ev).2.

End DailyLog.

(** ** The statistics screen *)

Module Stats.

Record FoodMoodStat := mkStat {
  totalScore : Z;
  occurrences : Z;
  averageScore : Q
}.

(** [FoodMoodData]: an object keyed by food name. *)
Abbreviation FoodMoodData := (gmap string FoodMoodStat).

Record DailyMoodData := mkPoint {
  date : string;
  score : Z
}.

Inductive Trend := up | down | same.

Inductive Direction := prev | next.

Record State := mkState {
  loading : bool;
  currentAverage : option Q;
  previousAverage : option Q;
  trend : option Trend;
  foodMoodData : FoodMoodData;
  dailyMoodData : list DailyMoodData;
  selectedMonth : Date;
  chartLoading : bool
}.

(** The state of a freshly mounted screen; [now] is [new Date ()]. *)
Definition initialState (now : Date) : State :=
  mkState true None None None ∅ [] now false.

Definition dayKey (d : Date) : string := "dayData_" +:+ format_ymd d.

(** The quotient of two integers, as a reduced fraction. *)
Definition quotient (a b : Z) : Q := Qred (inject_Z a / inject_Z b).

(** [moods.length > 0 ? moods.reduce ((a, b) => a + b, 0) / moods.length : null] *)
Definition average (moods : list Z) : option Q :=
  if 0 <? Z.of_nat (length moods)
  then Some (quotient (foldl Z.add 0 moods) (Z.of_nat (length moods)))
  else None.

(** The body shared by the two [while] loops of [calculateMoodAverages]:
    read the day's record and push its rating when it is truthy. *)
Definition pushMood (store : Storage) (currentDate : Date) (moods : list Z)
    : list Z :=
  match store !! dayKey currentDate with
  | Some dayData =>
      if truthy (moodRating dayData) then moods ++ [moodRating dayData]
      else moods
  | None => moods
  end.

(** A [while (cond (currentDate))] loop over days, with fuel. *)
Fixpoint whileDays (fuel : nat) (store : Storage) (cond : Date -> bool)
    (currentDate : Date) (moods : list Z) : option (list Z) :=
  match fuel with
  | O => None
  | S fuel' =>
      if cond currentDate
      then whileDays fuel' store cond (addDays currentDate 1)
                     (pushMood store currentDate moods)
      else Some moods
  end.

(** No month has more than 31 days: 32 tests of the loop condition. *)
Definition loopFuel : nat := 32.

(** One [forEach] step over the food entries of a day. *)
Definition addOccurrence (rating : Z) (foodMoodMap : FoodMoodData)
    (entry : FoodEntry) : FoodMoodData :=
  let foodName := toLowerCase (name entry) in
  let foodMoodMap1 :=
    match foodMoodMap !! foodName with
    | None => <[foodName := mkStat 0 0 0%Q]> foodMoodMap
    | Some _ => foodMoodMap
    end in
  alter (fun stat =>
           let total := totalScore stat + rating in
           let occ := occurrences stat + 1 in
           mkStat total occ (quotient total occ))
        foodName foodMoodMap1.

(** One step of the [for (const key of dayDataKeys)] loop. *)
Definition addDay (store : Storage) (foodMoodMap : FoodMoodData)
    (key : string) : FoodMoodData :=
  match store !! key with
  | Some dayData =>
      if truthy (moodRating dayData) && truthy_array (foodEntries dayData)
      then foldl (addOccurrence (moodRating dayData)) foodMoodMap
                 (foodEntries dayData)
      else foodMoodMap
  | None => foodMoodMap
  end.

(** [AsyncStorage.getAllKeys ()] *)
Definition getAllKeys (store : Storage) : list string :=
  (map_to_list store).*1.

Definition foodMoodCorrelations (store : Storage) : FoodMoodData :=
  let allDates := getAllKeys store in
  let dayDataKeys :=
    List.filter (fun key => startsWith key "dayData_") allDates in
  foldl (addDay store) ∅ dayDataKeys.

(** The series computed by [loadChartDataForMonth]. *)
Definition chartPoint (store : Storage) (day : Date) : DailyMoodData :=
  match store !! dayKey day with
  | Some dayData =>
      if truthy (moodRating dayData)
      then mkPoint (format_dd day) (moodRating dayData)
      else mkPoint (format_dd day) 0
  | None => mkPoint (format_dd day) 0
  end.

Definition dailyMoods (store : Storage) (d : Date) : list DailyMoodData :=
  let monthStart := startOfMonth d in
  let monthEnd := endOfMonth d in
  let daysOfMonth := eachDayOfInterval monthStart monthEnd in
  map (chartPoint store) daysOfMonth.

Definition loadChartDataForMonth (store : Storage) (d : Date) (st : State)
    : State :=
  mkState (loading st) (currentAverage st) (previousAverage st) (trend st)
          (foodMoodData st) (dailyMoods store d) (selectedMonth st) false.

(** [today] is [new Date ()].  The result is [None] only if a loop runs
    out of fuel. *)
Definition calculateMoodAverages (store : Storage) (today : Date)
    (st : State) : option State :=
  let currentMonthStart := startOfMonth today in
  let currentMonthEnd := endOfMonth today in
  let previousMonthStart := startOfMonth (subDays currentMonthStart 1) in
  let previousMonthEnd := endOfMonth (subDays currentMonthStart 1) in
  let st1 := loadChartDataForMonth store (selectedMonth st) st in
  match whileDays loopFuel store
          (fun currentDate => Date_leb currentDate currentMonthEnd
                              && Date_leb currentDate today)
          currentMonthStart [] with
  | None => None
  | Some currentMonthMoods =>
      match whileDays loopFuel store
              (fun currentDate => Date_leb currentDate previousMonthEnd)
              previousMonthStart [] with
      | None => None
      | Some previousMonthMoods =>
          let currentAvg := average currentMonthMoods in
          let previousAvg := average previousMonthMoods in
          let trend' :=
            match currentAvg, previousAvg with
            | Some c, Some p =>
                if negb (Qle_bool c p) then Some up
                else if negb (Qle_bool p c) then Some down
                else Some same
            | _, _ => trend st1
            end in
          Some (mkState false currentAvg previousAvg trend'
                        (foodMoodCorrelations store)
                        (dailyMoodData st1) (selectedMonth st1)
                        (chartLoading st1))
      end
  end.

(** [now] is the [new Date ()] of the guard. *)
Definition handleMonthChange (store : Storage) (direction : Direction)
    (now : Date) (st : State) : State :=
  let currentMonth := selectedMonth st in
  let newMonth :=
    match direction with
    | prev => subMonths currentMonth 1
    | next => addMonths currentMonth 1
    end in
  if (match direction with next => true | prev => false end)
     && Date_gtb newMonth now
  then st
  else
    let st1 := loadChartDataForMonth store newMonth st in
    mkState (loading st1) (currentAverage st1) (previousAverage st1)
            (trend st1) (foodMoodData st1) (dailyMoodData st1) newMonth
            (chartLoading st1).

(** The test that disables the next-month button. *)
Definition isCurrentMonth (now : Date) (st : State) : bool :=
  String.eqb (format_ym (selectedMonth st)) (format_ym now).

Inductive SortBy := byName | byScore.

(** [filteredFoodData]: [entries] is [Object.entries (foodMoodData)], the
    statistics in the order of their insertion; [localeCompare] is the
    comparison of names of the platform (negative, zero or positive). *)
Definition filteredFoodData (localeCompare : string -> string -> Z)
    (entries : list (string * FoodMoodStat)) (searchQuery : string)
    (sortBy : SortBy) : list (string * FoodMoodStat) :=
  stableSort
    (fun a b =>
       match sortBy with
       | byName => localeCompare a.1 b.1 <=? 0
       | byScore => Qle_bool (averageScore b.2 - averageScore a.2) 0
       end)
    (List.filter (fun entry => includes entry.1 (toLowerCase searchQuery))
                 entries).

(** The points the chart plots: the days with a positive score. *)
Definition plotted (dailyMoodData : list DailyMoodData)
    : list DailyMoodData :=
  List.filter (fun day => 0 <? score day) dailyMoodData.

Definition chartLabels (dailyMoodData : list DailyMoodData) : list string :=
  map date (plotted dailyMoodData).





(** The chart is drawn when some point is plotted. *)
Definition chartShown (dailyMoodData : list DailyMoodData) : bool :=
  0 <? Z.of_nat (length (plotted dailyMoodData)).

End Stats.

(** ** The quantities the specification speaks of *)

(** The mood rating of a day, when the day has a record whose rating is
    set. *)
Definition setRating (store : Storage) (d : Date) : option Z :=
  match store !! Stats.dayKey d with
  | Some dayData =>
      if truthy (moodRating dayData) then Some (moodRating dayData) else None
  | None => None
  end.

(** The set ratings of the days [first], [first + 1], ... ([count] days) of
    the month [m] of the year [y], in ascending order of the day. *)
Definition ratingsOfDays (store : Storage) (y m first count : Z) : list Z :=
  omap (fun k => setRating store (mkDate y m k 0)) (seqZ first count).

Definition sumZ (l : list Z) : Z := foldr Z.add 0 l.

(** The arithmetic mean of a list of integers; absent for the empty list. *)
Definition mean (l : list Z) : option Q :=
  match l with
  | [] => None
  | _ => Some (Qred (inject_Z (sumZ l) / inject_Z (Z.of_nat (length l))))
  end.

(** The year and the month of the calendar month before that of [d]. *)
Definition previousMonth (d : Date) : Z * Z :=
  if 1 <? month d then (year d, month d - 1) else (year d - 1, 12).

(** The trend of two averages, where both are present; [old], the trend
    the screen held before, otherwise. *)
Definition classify (c p : option Q) (old : option Stats.Trend)
    : option Stats.Trend :=
  match c, p with
  | Some c, Some p =>
      if negb (Qle_bool c p) then Some Stats.up
      else if negb (Qle_bool p c) then Some Stats.down
      else Some Stats.same
  | _, _ => old
  end.

(** The stored day records: the entries of the store whose key starts
    with [dayData_]. *)
Definition dayRecords (store : Storage) : list (string * DayData) :=
  List.filter (fun kv => startsWith kv.1 "dayData_") (map_to_list store).

(** The food entries of a record whose name lower-cases to [food]. *)
Definition entriesOf (food : string) (dayData : DayData) : list FoodEntry :=
  List.filter (fun entry => String.eqb (toLowerCase (name entry)) food)
              (foodEntries dayData).

(** What a day contributes to [food]: the day's rating, once for each of
    these entries, when the rating is set. *)
Definition daySamples (food : string) (dayData : DayData) : list Z :=
  if truthy (moodRating dayData)
  then map (fun _ => moodRating dayData) (entriesOf food dayData)
  else [].

(** The samples of [food] across all stored day records. *)
Definition foodSamples (store : Storage) (food : string) : list Z :=
  flat_map (fun kv => daySamples food kv.2) (dayRecords store).

(** The statistic of a list of samples; none for the empty list. *)
Definition statOf (samples : list Z) : option Stats.FoodMoodStat :=
  match samples with
  | [] => None
  | _ =>
      Some (Stats.mkStat (sumZ samples) (Z.of_nat (length samples))
              (Qred (inject_Z (sumZ samples)
                     / inject_Z (Z.of_nat (length samples)))))
  end.


(** The record a daily log screen holds in its five values. *)
Definition recordOf (st : DailyLog.State) : DayData :=
  mkDayData (DailyLog.foodEntries st) (DailyLog.workoutDone st)
            (DailyLog.workoutNote st) (DailyLog.moodRating st)
            (DailyLog.moodNote st).

(** The store of the scenario: 2024-03-01 with mood 8 and Pizza at 12:00,
    2024-03-02 with mood 4, Pizza at 13:00 and Salad at 19:00. *)
Definition scenarioStore : Storage :=
  <[DailyLog.getStorageKey (mkDate 2024 3 2 0) :=
      mkDayData
        [mkFoodEntry "1709384400000" "Pizza"
           (getTime (mkDate 2024 3 2 (13 * 3600000)));
         mkFoodEntry "1709406000000" "Salad"
           (getTime (mkDate 2024 3 2 (19 * 3600000)))]
        false "" 4 ""]>
  (<[DailyLog.getStorageKey (mkDate 2024 3 1 0) :=
       mkDayData
         [mkFoodEntry "1709294400000" "Pizza"
            (getTime (mkDate 2024 3 1 (12 * 3600000)))]
         false "" 8 ""]> ∅).

(** A store with one rated day in February 2024 and one in March 2024. *)
Definition twoMonthStore : Storage :=
  <[DailyLog.getStorageKey (mkDate 2024 3 10 0) :=
      mkDayData [] false "" 7 ""]>
  (<[DailyLog.getStorageKey (mkDate 2024 2 10 0) :=
       mkDayData [] false "" 6 ""]> ∅).

(** Food entries in ascending order of their time. *)
Definition sortedByTime (l : list FoodEntry) : Prop :=
  StronglySorted (fun a b => time a <= time b) l.

(** A custom time of the entry dialog is well formed when its two fields
    read as an hour in 0..23 and a minute in 0..59. *)
Definition wellFormedTime (hours minutes : string) : Prop :=
  exists h m, parseInt hours = Some h /\ parseInt minutes = Some m
              /\ 0 <= h <= 23 /\ 0 <= m <= 59.

(** The record the store holds for the selected date is the record the
    screen holds. *)
Definition inSync (store : Storage) (st : DailyLog.State) : Prop :=
  store !! DailyLog.getStorageKey (DailyLog.selectedDate st)
  = Some (recordOf st).

(** A mood rating of the selector's range. *)
Definition inRange (rating : Z) : Prop := 1 <= rating <= 10.

(** Every stored record has a rating of the selector's range. *)
Definition ratingsInRange (store : Storage) : Prop :=
  forall key dayData, store !! key = Some dayData ->
                      inRange (moodRating dayData).


(** The point the chart plots for a day: the day's set rating, when it is
    positive. *)
Definition plottedPoint (store : Storage) (y m k : Z)
    : option Stats.DailyMoodData :=
  match setRating store (mkDate y m k 0) with
  | Some rating =>
      if 0 <? rating then Some (Stats.mkPoint (pad2 k) rating) else None
  | None => None
  end.

(** * Properties *)

(** ** Calendar arithmetic *)

Section Calendar.

Example format_ymd_ex : format_ymd (mkDate 2024 3 1 0) = "2024-03-01"%string.
Proof. reflexivity. Qed.

Example toLowerCase_ex : toLowerCase "Pizza" = "pizza"%string.
Proof. reflexivity. Qed.

Example daysFromCivil_ex : daysFromCivil 2024 3 1 = 19783.
Proof. reflexivity. Qed.

Example addMonths_ex :
  addMonths (mkDate 2024 1 31 5) 1 = mkDate 2024 2 29 5.
Proof. reflexivity. Qed.

Lemma daysInMonth_bounds y m : 28 <= daysInMonth y m <= 31.
Proof.
  unfold daysInMonth.
  destruct (m =? 2); [destruct (isLeapYear y); lia|].
  destruct ((m =? 4) || (m =? 6) || (m =? 9) || (m =? 11)); lia.
Qed.

(** The day count is linear in the day of the month. *)
Lemma daysFromCivil_day y m d k :
  daysFromCivil y m (d + k) = daysFromCivil y m d + k.
Proof. unfold daysFromCivil. cbv zeta. lia. Qed.

Lemma getTime_mkDate y m d t :
  getTime (mkDate y m d t) = (daysFromCivil y m 0 + d) * msPerDay + t.
Proof.
  unfold getTime. cbn [year month day tod].
  replace d with (0 + d) at 1 by lia. now rewrite daysFromCivil_day.
Qed.

Ltac calendar_cases :=
  unfold daysFromCivil, daysInMonth, isLeapYear;
  cbn [Z.eqb Z.leb Z.ltb Z.compare Pos.compare Pos.compare_cont Pos.eqb
       orb andb negb Z.add Z.sub Z.opp Z.pos_sub Pos.add Pos.succ
       Pos.pred_double Z.succ_double Z.pred_double Z.double];
  cbv zeta.

(** The first of March follows the last day of February. *)
Lemma daysFromCivil_february y :
  daysFromCivil y 3 1 = daysFromCivil y 2 (daysInMonth y 2) + 1.
Proof.
  calendar_cases.
  destruct (Z.eqb_spec (y mod 4) 0); destruct (Z.eqb_spec (y mod 100) 0);
    destruct (Z.eqb_spec (y mod 400) 0); cbn [negb orb andb];
    Z.div_mod_to_equations; lia.
Qed.

(** The first day of a month follows the last day of the month before. *)
Lemma daysFromCivil_next_month y m :
  1 <= m < 12 ->
  daysFromCivil y (m + 1) 1 = daysFromCivil y m (daysInMonth y m) + 1.
Proof.
  intros Hm.
  assert (m = 1 \/ m = 2 \/ m = 3 \/ m = 4 \/ m = 5 \/ m = 6 \/ m = 7
          \/ m = 8 \/ m = 9 \/ m = 10 \/ m = 11) as Hcases by lia.
  destruct Hcases as [->|[->|[->|[->|[->|[->|[->|[->|[->|[->| ->]]]]]]]]]];
    [ | apply daysFromCivil_february | .. ];
    match goal with
    | |- context [Z.pos ?p + 1] =>
        let v := eval compute in (Z.pos p + 1) in
        change (Z.pos p + 1) with v
    end;
    calendar_cases; Z.div_mod_to_equations; lia.
Qed.

Lemma daysFromCivil_next_year y :
  daysFromCivil (y + 1) 1 1 = daysFromCivil y 12 31 + 1.
Proof.
  calendar_cases. replace (y + 1 - 1) with y by lia.
  Z.div_mod_to_equations; lia.
Qed.

(** [nextDay] advances the millisecond count by one day. *)
Lemma getTime_nextDay d :
  validDate d -> getTime (nextDay d) = getTime d + msPerDay.
Proof.
  destruct d as [y m dd t]. unfold validDate, nextDay.
  cbn [year month day tod]. intros (Hm & Hd & Ht).
  destruct (Z.ltb_spec dd (daysInMonth y m)).
  - rewrite !getTime_mkDate. lia.
  - assert (dd = daysInMonth y m) as -> by lia.
    destruct (Z.ltb_spec m 12).
    + unfold getTime. cbn [year month day tod].
      rewrite daysFromCivil_next_month by lia. lia.
    + assert (m = 12) as -> by lia.
      unfold getTime. cbn [year month day tod].
      rewrite daysFromCivil_next_year.
      replace (daysInMonth y 12) with 31 by reflexivity. lia.
Qed.

Lemma validDate_nextDay d : validDate d -> validDate (nextDay d).
Proof.
  destruct d as [y m dd t]. unfold validDate, nextDay.
  cbn [year month day tod]. intros (Hm & Hd & Ht).
  destruct (Z.ltb_spec dd (daysInMonth y m)); [cbn; lia|].
  destruct (Z.ltb_spec m 12); cbn [year month day tod].
  - pose proof (daysInMonth_bounds y (m + 1)). lia.
  - pose proof (daysInMonth_bounds (y + 1) 1). lia.
Qed.

(** Inside a month, [nextDay] only moves the day of the month. *)
Lemma iter_nextDay_in_month y m t (i : nat) (d : Z) :
  d + Z.of_nat i <= daysInMonth y m ->
  Nat.iter i nextDay (mkDate y m d t) = mkDate y m (d + Z.of_nat i) t.
Proof.
  induction i as [|i IH]; intros Hle.
  - cbn [Nat.iter nat_rect]. f_equal. lia.
  - rewrite Nat.iter_succ, IH by lia. unfold nextDay.
    cbn [year month day tod].
    destruct (Z.ltb_spec (d + Z.of_nat i) (daysInMonth y m)); [|lia].
    f_equal. lia.
Qed.

Lemma addDays_one d : addDays d 1 = nextDay d.
Proof. reflexivity. Qed.

(** The days of a month, as [eachDayOfInterval] lists them. *)
Lemma eachDayOfInterval_month d :
  eachDayOfInterval (startOfMonth d) (endOfMonth d)
  = map (fun k => mkDate (year d) (month d) k 0)
        (seqZ 1 (daysInMonth (year d) (month d))).
Proof.
  unfold eachDayOfInterval, startOfMonth, endOfMonth.
  cbn [year month day tod].
  set (y := year d). set (m := month d).
  pose proof (daysInMonth_bounds y m) as Hb.
  replace (daysInMonth y m) with (1 + (daysInMonth y m - 1)) at 1 by lia.
  rewrite daysFromCivil_day.
  replace (daysFromCivil y m 1 + (daysInMonth y m - 1)
           - daysFromCivil y m 1 + 1) with (daysInMonth y m) by lia.
  unfold seqZ. rewrite <- list_fmap_compose.
  apply map_ext_in. intros i Hi. apply in_seq in Hi.
  unfold compose. rewrite iter_nextDay_in_month by lia. f_equal. lia.
Qed.

(** The day before the first of a month. *)
Lemma subDays_startOfMonth d :
  subDays (startOfMonth d) 1
  = if 1 <? month d
    then mkDate (year d) (month d - 1)
                (daysInMonth (year d) (month d - 1)) 0
    else mkDate (year d - 1) 12 31 0.
Proof. reflexivity. Qed.

End Calendar.

(** ** The loops over the days of a month *)

Section MonthLoops.

Variable store : Storage.

Lemma dayKey_tod y m d t t' :
  Stats.dayKey (mkDate y m d t) = Stats.dayKey (mkDate y m d t').
Proof. reflexivity. Qed.

Lemma pushMood_setRating y m d t moods :
  Stats.pushMood store (mkDate y m d t) moods
  = moods ++ option_list (setRating store (mkDate y m d 0)).
Proof.
  unfold Stats.pushMood, setRating.
  rewrite (dayKey_tod y m d t 0).
  destruct (store !! Stats.dayKey (mkDate y m d 0)) as [r|]; cbn.
  - destruct (truthy (moodRating r)); cbn; [done | by rewrite app_nil_r].
  - by rewrite app_nil_r.
Qed.

Lemma ratingsOfDays_cons y m k n :
  0 < n ->
  ratingsOfDays store y m k n
  = option_list (setRating store (mkDate y m k 0))
    ++ ratingsOfDays store y m (k + 1) (n - 1).
Proof.
  intros Hn. unfold ratingsOfDays.
  rewrite (seqZ_cons k n) by lia.
  replace (Z.succ k) with (k + 1) by lia.
  replace (Z.pred n) with (n - 1) by lia.
  cbn [omap list_omap].
  destruct (setRating store (mkDate y m k 0)); reflexivity.
Qed.

(** A [while] loop that starts on day [k] of a month, accepts every day up
    to [last] and refuses the day after [last], collects the set ratings of
    the days [k..last]; one unit of fuel per test of its condition. *)
Lemma whileDays_in_month (cond : Date -> bool) y m t last :
  last <= daysInMonth y m ->
  (forall k, 1 <= k <= last -> cond (mkDate y m k t) = true) ->
  cond (nextDay (mkDate y m last t)) = false ->
  forall (n : nat) k moods fuel,
    1 <= k -> k + Z.of_nat n = last -> (n + 2 <= fuel)%nat ->
    Stats.whileDays fuel store cond (mkDate y m k t) moods
    = Some (moods ++ ratingsOfDays store y m k (last - k + 1)).
Proof.
  intros Hlast Hin Hout n.
  induction n as [|n IH]; intros k moods fuel Hk Hn Hfuel.
  - assert (k = last) as -> by lia.
    destruct fuel as [|[|fuel]]; [lia | lia |].
    cbn [Stats.whileDays]. rewrite Hin by lia. rewrite addDays_one, Hout.
    rewrite pushMood_setRating.
    replace (last - last + 1) with 1 by lia.
    rewrite ratingsOfDays_cons by lia.
    replace (1 - 1) with 0 by lia.
    change (ratingsOfDays store y m (last + 1) 0) with (@nil Z).
    by rewrite app_nil_r.
  - destruct fuel as [|fuel]; [lia|].
    cbn [Stats.whileDays]. rewrite Hin by lia. rewrite addDays_one.
    unfold nextDay at 1. cbn [year month day tod].
    destruct (Z.ltb_spec k (daysInMonth y m)); [|lia].
    rewrite IH by lia. rewrite pushMood_setRating.
    rewrite (ratingsOfDays_cons y m k (last - k + 1)) by lia.
    rewrite <- app_assoc. do 3 f_equal. f_equal. lia.
Qed.

End MonthLoops.

(** ** The monthly averages *)

Section Averages.

Variable store : Storage.

Lemma foldl_add_sumZ (l : list Z) (a : Z) : foldl Z.add a l = a + sumZ l.
Proof.
  revert a. induction l as [|x l IH]; intros a; cbn [foldl sumZ foldr].
  - lia.
  - rewrite IH. unfold sumZ. lia.
Qed.

(** The conditional of the code and the mean of the specification agree. *)
Lemma average_mean (l : list Z) : Stats.average l = mean l.
Proof.
  unfold Stats.average, mean, Stats.quotient.
  destruct l as [|x l]; [reflexivity|].
  destruct (Z.ltb_spec 0 (Z.of_nat (length (x :: l)))) as [_|H].
  - by rewrite foldl_add_sumZ, Z.add_0_l.
  - cbn [length] in H. lia.
Qed.

(** The first loop: the days of the current month up to today. *)
Lemma currentMonthMoods_spec (today : Date) :
  validDate today ->
  Stats.whileDays Stats.loopFuel store
    (fun currentDate => Date_leb currentDate (endOfMonth today)
                        && Date_leb currentDate today)
    (startOfMonth today) []
  = Some (ratingsOfDays store (year today) (month today) 1 (day today)).
Proof.
  destruct today as [y m d t]. unfold validDate, startOfMonth, endOfMonth.
  cbn [year month day tod]. intros (Hm & Hd & Ht).
  pose proof (daysInMonth_bounds y m) as Hb.
  rewrite (whileDays_in_month store _ y m 0 d) with (n := Z.to_nat (d - 1)).
  - cbn [app]. f_equal. f_equal. lia.
  - lia.
  - intros k Hk. unfold Date_leb. rewrite !getTime_mkDate.
    apply andb_true_intro. split; apply Z.leb_le; unfold msPerDay in *; nia.
  - apply andb_false_intro2. unfold Date_leb.
    rewrite getTime_nextDay by (unfold validDate, msPerDay; cbn; lia).
    rewrite !getTime_mkDate. apply Z.leb_gt. unfold msPerDay in *. lia.
  - lia.
  - lia.
  - unfold Stats.loopFuel. lia.
Qed.

(** The second loop: every day of a month. *)
Lemma wholeMonthMoods_spec (y m : Z) :
  1 <= m <= 12 ->
  Stats.whileDays Stats.loopFuel store
    (fun currentDate =>
       Date_leb currentDate (mkDate y m (daysInMonth y m) (msPerDay - 1)))
    (mkDate y m 1 0) []
  = Some (ratingsOfDays store y m 1 (daysInMonth y m)).
Proof.
  intros Hm. pose proof (daysInMonth_bounds y m) as Hb.
  rewrite (whileDays_in_month store _ y m 0 (daysInMonth y m))
    with (n := Z.to_nat (daysInMonth y m - 1)).
  - cbn [app]. f_equal. f_equal. lia.
  - lia.
  - intros k Hk. unfold Date_leb. rewrite !getTime_mkDate.
    apply Z.leb_le. unfold msPerDay. nia.
  - unfold Date_leb.
    rewrite getTime_nextDay by (unfold validDate, msPerDay; cbn; lia).
    rewrite !getTime_mkDate. apply Z.leb_gt. unfold msPerDay. lia.
  - lia.
  - lia.
  - unfold Stats.loopFuel. lia.
Qed.

(** The whole of [calculateMoodAverages] on a valid date: it returns, and
    every field of the state it returns is determined. *)
Lemma calculateMoodAverages_spec (today : Date) (st : Stats.State) :
  validDate today ->
  let currentAvg :=
    mean (ratingsOfDays store (year today) (month today) 1 (day today)) in
  let previousAvg :=
    mean (ratingsOfDays store (previousMonth today).1 (previousMonth today).2
            1 (daysInMonth (previousMonth today).1 (previousMonth today).2)) in
  Stats.calculateMoodAverages store today st
  = Some (Stats.mkState false currentAvg previousAvg
            (classify currentAvg previousAvg (Stats.trend st))
            (Stats.foodMoodCorrelations store)
            (Stats.dailyMoods store (Stats.selectedMonth st))
            (Stats.selectedMonth st) false).
Proof.
  intros Hv. cbv zeta. unfold Stats.calculateMoodAverages.
  rewrite currentMonthMoods_spec by assumption.
  rewrite subDays_startOfMonth. unfold previousMonth.
  destruct Hv as (Hm & Hd & Ht).
  destruct (Z.ltb_spec 1 (month today)); unfold startOfMonth, endOfMonth;
    cbn [year month day tod fst snd];
    rewrite wholeMonthMoods_spec by lia;
    rewrite !average_mean; reflexivity.
Qed.

End Averages.

(** ** The food-mood correlation *)

Section Correlation.

Variable store : Storage.
Variable food : string.

Lemma sumZ_snoc (l : list Z) (r : Z) : sumZ (l ++ [r]) = sumZ l + r.
Proof.
  unfold sumZ. induction l as [|x l IH]; cbn [app foldr]; [lia|].
  rewrite IH. lia.
Qed.

(** Adding one sample to a statistic, as the three assignments do. *)
Lemma statOf_snoc (l : list Z) (r : Z) :
  let stat := default (Stats.mkStat 0 0 0%Q) (statOf l) in
  let total := Stats.totalScore stat + r in
  let occ := Stats.occurrences stat + 1 in
  Some (Stats.mkStat total occ (Stats.quotient total occ)) = statOf (l ++ [r]).
Proof.
  cbv zeta. unfold Stats.quotient.
  assert (Hlen : Z.of_nat (length (l ++ [r])) = Z.of_nat (length l) + 1).
  { rewrite length_app. cbn [length]. lia. }
  destruct l as [|x l].
  - cbn [statOf default app Stats.totalScore Stats.occurrences].
    unfold sumZ. cbn [foldr length]. rewrite Z.add_0_r. reflexivity.
  - change (statOf ((x :: l) ++ [r])) with
      (Some (Stats.mkStat (sumZ ((x :: l) ++ [r]))
               (Z.of_nat (length ((x :: l) ++ [r])))
               (Qred (inject_Z (sumZ ((x :: l) ++ [r]))
                      / inject_Z (Z.of_nat (length ((x :: l) ++ [r]))))))).
    rewrite Hlen, sumZ_snoc. reflexivity.
Qed.

Lemma addOccurrence_lookup rating (m : Stats.FoodMoodData) entry (l : list Z) :
  m !! food = statOf l ->
  Stats.addOccurrence rating m entry !! food
  = statOf (l ++ if String.eqb (toLowerCase (name entry)) food
                 then [rating] else []).
Proof.
  intros Hm. unfold Stats.addOccurrence.
  destruct (String.eqb_spec (toLowerCase (name entry)) food) as [->|Hne].
  - rewrite lookup_alter_eq.
    destruct (m !! food) as [stat|] eqn:Hlook.
    + rewrite Hlook. cbn [fmap option_fmap option_map].
      rewrite <- statOf_snoc, <- Hm. reflexivity.
    + rewrite lookup_insert_eq. cbn [fmap option_fmap option_map].
      rewrite <- statOf_snoc, <- Hm. reflexivity.
  - rewrite app_nil_r, lookup_alter_ne by done.
    destruct (m !! toLowerCase (name entry)); [done|].
    by rewrite lookup_insert_ne.
Qed.

Lemma forEach_addOccurrence_lookup rating entries :
  forall (m : Stats.FoodMoodData) (l : list Z),
    m !! food = statOf l ->
    foldl (Stats.addOccurrence rating) m entries !! food
    = statOf (l ++ map (fun _ => rating)
                       (List.filter
                          (fun entry =>
                             String.eqb (toLowerCase (name entry)) food)
                          entries)).
Proof.
  induction entries as [|entry entries IH]; intros m l Hm.
  - cbn. by rewrite app_nil_r.
  - cbn [foldl List.filter].
    rewrite (IH _ _ (addOccurrence_lookup rating m entry l Hm)).
    rewrite <- app_assoc.
    destruct (String.eqb (toLowerCase (name entry)) food); reflexivity.
Qed.

Lemma addDay_lookup key dayData (m : Stats.FoodMoodData) (l : list Z) :
  store !! key = Some dayData ->
  m !! food = statOf l ->
  Stats.addDay store m key !! food = statOf (l ++ daySamples food dayData).
Proof.
  intros Hkey Hm. unfold Stats.addDay, daySamples, entriesOf.
  rewrite Hkey. unfold truthy_array. rewrite andb_true_r.
  destruct (truthy (moodRating dayData)).
  - by apply forEach_addOccurrence_lookup.
  - by rewrite app_nil_r.
Qed.

Lemma forKeys_addDay_lookup (P : string -> bool)
    (kvs : list (string * DayData)) :
  (forall kv, In kv kvs -> store !! kv.1 = Some kv.2) ->
  forall (m : Stats.FoodMoodData) (l : list Z),
    m !! food = statOf l ->
    foldl (Stats.addDay store) m (List.filter P kvs.*1) !! food
    = statOf (l ++ flat_map (fun kv => daySamples food kv.2)
                            (List.filter (fun kv => P kv.1) kvs)).
Proof.
  induction kvs as [|[key dayData] kvs IH]; intros Hstore m l Hm.
  - cbn. by rewrite app_nil_r.
  - cbn [fmap list_fmap List.filter fst snd].
    destruct (P key).
    + cbn [foldl flat_map snd].
      rewrite (IH (fun kv H => Hstore kv (or_intror H)) _ (l ++ daySamples food dayData)).
      * by rewrite <- app_assoc.
      * apply addDay_lookup; [|done]. apply (Hstore (key, dayData)). by left.
    + apply IH; [|done]. intros kv H. apply Hstore. by right.
Qed.

(** The correlation map at [food] is the statistic of the samples of
    [food]. *)
Lemma foodMoodCorrelations_lookup :
  Stats.foodMoodCorrelations store !! food = statOf (foodSamples store food).
Proof.
  unfold Stats.foodMoodCorrelations, Stats.getAllKeys, foodSamples, dayRecords.
  rewrite (forKeys_addDay_lookup _ (map_to_list store)) with (l := []).
  - reflexivity.
  - intros [key dayData] Hin. apply (elem_of_map_to_list store).
    by apply list_elem_of_In.
  - apply lookup_empty.
Qed.

End Correlation.

(** ** The claims about the analytics *)


(** A food eaten three times on one day with mood 8 has three occurrences
    of score 8. *)
Example three_times_in_one_day :
  Stats.foodMoodCorrelations
    (<["dayData_2024-03-05"%string :=
         mkDayData [mkFoodEntry "1" "Rice" 10; mkFoodEntry "2" "rice" 20;
                    mkFoodEntry "3" "RICE" 30] false "" 8 ""]> ∅)
  !! "rice"%string
  = Some (Stats.mkStat 24 3 8%Q).
Proof. vm_compute. reflexivity. Qed.


Lemma chartPoint_setRating store y m k t :
  Stats.chartPoint store (mkDate y m k t)
  = Stats.mkPoint (pad2 k) (default 0 (setRating store (mkDate y m k 0))).
Proof.
  unfold Stats.chartPoint, setRating, format_dd.
  rewrite (dayKey_tod y m k t 0). cbn [day].
  destruct (store !! Stats.dayKey (mkDate y m k 0)) as [r|]; [|reflexivity].
  destruct (truthy (moodRating r)); reflexivity.
Qed.

(** The series of a month, day by day. *)
Lemma dailyMoods_spec store d :
  Stats.dailyMoods store d
  = map (fun k => Stats.mkPoint (pad2 k)
                    (default 0 (setRating store
                                  (mkDate (year d) (month d) k 0))))
        (seqZ 1 (daysInMonth (year d) (month d))).
Proof.
  unfold Stats.dailyMoods. rewrite eachDayOfInterval_month, map_map.
  apply map_ext. intros k. apply chartPoint_setRating.
Qed.

(** C3. For every store and every target date, the series that
    [loadChartDataForMonth] stores has one point for each day 1, 2, ...,
    up to the number of days of the target month, in this order; the point
    of a day carries the day's two-digit number and the day's mood rating
    when the day has a record with a set rating, and the score 0
    otherwise. *)
Theorem loadChartDataForMonth_series (store : Storage) (d : Date)
    (st : Stats.State) :
  let series := Stats.dailyMoodData (Stats.loadChartDataForMonth store d st) in
  series
  = map (fun k => Stats.mkPoint (pad2 k)
                    (default 0 (setRating store
                                  (mkDate (year d) (month d) k 0))))
        (seqZ 1 (daysInMonth (year d) (month d)))
  /\ Z.of_nat (length series) = daysInMonth (year d) (month d).
Proof.
  cbv zeta. cbn [Stats.loadChartDataForMonth Stats.dailyMoodData].
  rewrite dailyMoods_spec. split; [reflexivity|].
  rewrite length_map, length_seqZ.
  pose proof (daysInMonth_bounds (year d) (month d)). lia.
Qed.

(** C4. For every store and every valid reference date,
    [calculateMoodAverages] returns; the current average it sets is the
    mean of the set ratings of the days from the first of the reference
    month to the reference day, and the previous average is the mean of the
    set ratings of all the days of the month before (a day without a record
    or with rating 0 gives no sample; the mean of no sample is absent). *)
Theorem calculateMoodAverages_means (store : Storage) (today : Date)
    (st : Stats.State) :
  validDate today ->
  exists st',
    Stats.calculateMoodAverages store today st = Some st'
    /\ Stats.currentAverage st'
       = mean (ratingsOfDays store (year today) (month today) 1 (day today))
    /\ Stats.previousAverage st'
       = mean (ratingsOfDays store
                 (previousMonth today).1 (previousMonth today).2 1
                 (daysInMonth (previousMonth today).1
                              (previousMonth today).2)).
Proof.
  intros Hv. eexists. split.
  - apply calculateMoodAverages_spec. exact Hv.
  - split; reflexivity.
Qed.

Lemma calculateMoodAverages_means_witness :
  validDate (mkDate 2024 3 15 36000000)
  /\ exists st',
    Stats.calculateMoodAverages scenarioStore (mkDate 2024 3 15 36000000)
      (Stats.initialState (mkDate 2024 3 15 36000000)) = Some st'
    /\ Stats.currentAverage st'
       = mean (ratingsOfDays scenarioStore 2024 3 1 15)
    /\ Stats.previousAverage st'
       = mean (ratingsOfDays scenarioStore 2024 2 1 29).
Proof.
  assert (Hv : validDate (mkDate 2024 3 15 36000000))
    by (unfold validDate, msPerDay; cbn; lia).
  split; [exact Hv|].
  exact (calculateMoodAverages_means scenarioStore
           (mkDate 2024 3 15 36000000)
           (Stats.initialState (mkDate 2024 3 15 36000000)) Hv).
Defined.

(** On a screen that holds no trend, an absent average leaves the trend
    absent. *)
Lemma trend_absent_without_earlier_trend (store : Storage) (today : Date)
    (st st' : Stats.State) :
  validDate today ->
  Stats.trend st = None ->
  Stats.calculateMoodAverages store today st = Some st' ->
  Stats.currentAverage st' = None \/ Stats.previousAverage st' = None ->
  Stats.trend st' = None.
Proof.
  intros Hv Hold Hrun Habsent.
  rewrite (calculateMoodAverages_spec store today st Hv) in Hrun.
  injection Hrun as <-. cbn [Stats.trend Stats.currentAverage
                              Stats.previousAverage] in *.
  unfold classify. rewrite Hold.
  destruct Habsent as [-> | ->]; [reflexivity|].
  destruct (mean _); reflexivity.
Qed.

(** C2 (the code departs from the claim).  The screen is opened on
    2024-03-31 over [twoMonthStore]: the averages are 7 and 6 and the trend
    is [up].  The same screen computes again on 2024-04-01: April has no
    rated day, the current average is absent, and the trend is still
    [up]. *)
Theorem trend_kept_when_average_absent :
  exists st1 st2,
    Stats.calculateMoodAverages twoMonthStore (mkDate 2024 3 31 36000000)
      (Stats.initialState (mkDate 2024 3 31 36000000)) = Some st1
    /\ Stats.trend st1 = Some Stats.up
    /\ Stats.calculateMoodAverages twoMonthStore (mkDate 2024 4 1 32400000)
         st1 = Some st2
    /\ Stats.currentAverage st2 = None
    /\ Stats.previousAverage st2 = Some 7%Q
    /\ Stats.trend st2 = Some Stats.up.
Proof.
  assert (Hv1 : validDate (mkDate 2024 3 31 36000000))
    by (unfold validDate, msPerDay; cbn; lia).
  assert (Hv2 : validDate (mkDate 2024 4 1 32400000))
    by (unfold validDate, msPerDay; cbn; lia).
  eexists. eexists. split.
  { apply calculateMoodAverages_spec. exact Hv1. }
  split; [vm_compute; reflexivity|]. split.
  { apply calculateMoodAverages_spec. exact Hv2. }
  repeat split; vm_compute; reflexivity.
Qed.

(** ** The claims about the daily log *)

(** What [loadDayData] gives the screen for a date with no record. *)
Lemma loadDayData_absent (store : Storage) (date : Date)
    (st : DailyLog.State) :
  store !! DailyLog.getStorageKey date = None ->
  DailyLog.loadDayData store date st
  = DailyLog.mkState (DailyLog.selectedDate st) false "" 5 "" []
      (DailyLog.modalVisible st) (DailyLog.editingEntry st).
Proof. intros Habsent. unfold DailyLog.loadDayData. by rewrite Habsent. Qed.

(** C5. For every store, every date and every record held by the screen,
    saving the record on that date and then loading that date gives the
    screen the same record again, whatever the screen held in between. *)
Theorem saveDayData_loadDayData (store : Storage) (st st' : DailyLog.State) :
  let date := DailyLog.selectedDate st in
  recordOf (DailyLog.loadDayData (DailyLog.saveDayData store st) date st')
  = recordOf st.
Proof.
  cbv zeta. unfold DailyLog.loadDayData, DailyLog.saveDayData.
  rewrite lookup_insert_eq. reflexivity.
Qed.

(** Saving twice is saving once. *)
Lemma saveDayData_idempotent (store : Storage) (st : DailyLog.State) :
  DailyLog.saveDayData (DailyLog.saveDayData store st) st
  = DailyLog.saveDayData store st.
Proof. unfold DailyLog.saveDayData. apply insert_insert_eq. Qed.

(** C6, as the claim states it, fails: on the empty store the record that
    [loadDayData] gives for 2024-03-01 carries a set mood rating, and the
    chart reads that record, once stored, as a score of 5 where it reads
    the absent record as the score 0. *)
Lemma loadDayData_default_rating_is_set :
  let date := mkDate 2024 3 1 36000000 in
  let loaded :=
    DailyLog.loadDayData ∅ date (DailyLog.initialState date) in
  (∅ : Storage) !! DailyLog.getStorageKey date = None
  /\ ~ truthy (moodRating (recordOf loaded)) = false
  /\ Stats.score (Stats.chartPoint ∅ date) = 0
  /\ Stats.score
       (Stats.chartPoint
          (<[DailyLog.getStorageKey date := recordOf loaded]> ∅) date) = 5.
Proof. cbv zeta. repeat split; try discriminate; vm_compute; reflexivity. Qed.

(** C6, amended.  For every date with no stored record, [loadDayData]
    gives the screen no food entry, workout not done, empty notes, and the
    mood rating 5, which is a set rating. *)
Theorem loadDayData_absent_defaults (store : Storage) (date : Date)
    (st : DailyLog.State) :
  store !! DailyLog.getStorageKey date = None ->
  recordOf (DailyLog.loadDayData store date st) = mkDayData [] false "" 5 ""
  /\ truthy (moodRating (recordOf (DailyLog.loadDayData store date st)))
     = true.
Proof.
  intros Habsent. unfold DailyLog.loadDayData. rewrite Habsent.
  split; reflexivity.
Qed.

Lemma loadDayData_absent_defaults_witness :
  (∅ : Storage) !! DailyLog.getStorageKey (mkDate 2024 3 1 0) = None
  /\ recordOf (DailyLog.loadDayData ∅ (mkDate 2024 3 1 0)
                 (DailyLog.initialState (mkDate 2024 3 1 0)))
     = mkDayData [] false "" 5 ""
  /\ truthy (moodRating
               (recordOf (DailyLog.loadDayData ∅ (mkDate 2024 3 1 0)
                            (DailyLog.initialState (mkDate 2024 3 1 0)))))
     = true.
Proof.
  split; [reflexivity|].
  apply (loadDayData_absent_defaults ∅ (mkDate 2024 3 1 0)). reflexivity.
Defined.

(** C7, as the claim states it, fails: a screen whose mood rating is 11
    saves, and the store then holds the rating 11 for that day. *)
Lemma saveDayData_persists_rating_11 :
  let st := DailyLog.setMoodRating 11
              (DailyLog.initialState (mkDate 2024 3 1 36000000)) in
  moodRating <$>
    (DailyLog.saveDayData ∅ st
       !! DailyLog.getStorageKey (mkDate 2024 3 1 36000000))
  = Some 11
  /\ ~ (1 <= 11 <= 10).
Proof. cbv zeta. split; [vm_compute; reflexivity | lia]. Qed.

(** The entry dialog lets a custom time through only when it is well
    formed. *)
Lemma handleSave_checks_time (now : Date) (dialog : AddEntryModal.State)
    (entryName : string) (entryTime : Date) :
  AddEntryModal.useCustomTime dialog = true ->
  AddEntryModal.handleSave now dialog = AddEntryModal.Saved entryName entryTime ->
  wellFormedTime (AddEntryModal.hours dialog) (AddEntryModal.minutes dialog).
Proof.
  unfold AddEntryModal.handleSave, wellFormedTime. intros -> Hsaved.
  destruct (blank (AddEntryModal.name dialog)); [discriminate|].
  destruct (parseInt (AddEntryModal.hours dialog)) as [h|]; [|discriminate].
  destruct (parseInt (AddEntryModal.minutes dialog)) as [m|]; [|discriminate].
  destruct (Z.ltb_spec h 0); [discriminate|].
  destruct (Z.ltb_spec 23 h); [discriminate|].
  destruct (Z.ltb_spec m 0); [discriminate|].
  destruct (Z.ltb_spec 59 m); [discriminate|].
  exists h, m. repeat split; (reflexivity || lia).
Qed.

Example handleSave_hour_24 :
  AddEntryModal.handleSave (mkDate 2024 3 1 36000000)
    (AddEntryModal.mkState "Pizza" true "24" "00" "")
  = AddEntryModal.Rejected "Please enter valid time".
Proof. reflexivity. Qed.

Example handleSave_ok :
  AddEntryModal.handleSave (mkDate 2024 3 1 36000123)
    (AddEntryModal.mkState "Pizza" true "07" "45" "")
  = AddEntryModal.Saved "Pizza" (mkDate 2024 3 1 (7 * 3600000 + 45 * 60000 + 123)).
Proof. reflexivity. Qed.

(** C7, amended.  [saveDayData] checks nothing: for every store and every
    record held by the screen, whatever its mood rating, the save stores
    that very record under the key of the selected date, neither refused
    nor changed; a record whose rating is in the range 1..10 is stored as
    any other.  A custom entry time that is not well formed is refused
    earlier, by the entry dialog, which then reports an error and hands no
    entry to the screen. *)
Theorem saveDayData_stores_record_unchanged (store : Storage)
    (st : DailyLog.State) (now : Date) (dialog : AddEntryModal.State) :
  DailyLog.saveDayData store st
    !! DailyLog.getStorageKey (DailyLog.selectedDate st)
  = Some (recordOf st)
  /\ (AddEntryModal.useCustomTime dialog = true ->
      ~ wellFormedTime (AddEntryModal.hours dialog)
                       (AddEntryModal.minutes dialog) ->
      exists message,
        AddEntryModal.handleSave now dialog = AddEntryModal.Rejected message).
Proof.
  split.
  - unfold DailyLog.saveDayData. apply lookup_insert_eq.
  - intros Hcustom Hbad.
    destruct (AddEntryModal.handleSave now dialog) as [n t|message] eqn:Hrun.
    + exfalso. apply Hbad. eapply handleSave_checks_time; eassumption.
    + by exists message.
Qed.

Lemma saveDayData_stores_record_unchanged_witness :
  let st := DailyLog.setMoodRating 11
              (DailyLog.initialState (mkDate 2024 3 1 36000000)) in
  let dialog := AddEntryModal.mkState "Pizza" true "24" "00" "" in
  DailyLog.saveDayData ∅ st
    !! DailyLog.getStorageKey (DailyLog.selectedDate st)
  = Some (mkDayData [] false "" 11 "")
  /\ exists message,
       AddEntryModal.handleSave (mkDate 2024 3 1 36000000) dialog
       = AddEntryModal.Rejected message.
Proof.
  cbv zeta.
  pose proof (saveDayData_stores_record_unchanged ∅
                (DailyLog.setMoodRating 11
                   (DailyLog.initialState (mkDate 2024 3 1 36000000)))
                (mkDate 2024 3 1 36000000)
                (AddEntryModal.mkState "Pizza" true "24" "00" ""))
    as [Hstore Hdialog].
  split; [exact Hstore|].
  apply Hdialog; [reflexivity|].
  intros (h & m & Hh & Hm & Hhr & Hmr).
  vm_compute in Hh. injection Hh as <-. lia.
Defined.

(** ** The order of the food entries *)

Section EntryOrder.

Lemma insertByTime_Forall (P : FoodEntry -> Prop) x l :
  P x -> Forall P l -> Forall P (insertByTime x l).
Proof.
  intros Hx. induction 1 as [|y l Hy Hl IH]; cbn [insertByTime].
  - by constructor.
  - destruct (time x <=? time y); repeat constructor; assumption.
Qed.

Lemma insertByTime_sorted x l :
  sortedByTime l -> sortedByTime (insertByTime x l).
Proof.
  unfold sortedByTime.
  induction 1 as [|y l Hsorted IH Hall]; cbn [insertByTime].
  - repeat constructor.
  - destruct (Z.leb_spec (time x) (time y)) as [Hle|Hgt].
    + constructor; [by constructor|]. constructor; [exact Hle|].
      eapply Forall_impl; [exact Hall|]. cbn. intros z Hz. lia.
    + constructor; [exact IH|].
      apply insertByTime_Forall; [lia | exact Hall].
Qed.

Lemma sortByTime_sorted l : sortedByTime (sortByTime l).
Proof.
  unfold sortByTime. induction l as [|x l IH]; cbn [foldr].
  - constructor.
  - by apply insertByTime_sorted.
Qed.

Lemma filter_sorted (P : FoodEntry -> Prop) `{!forall x, Decision (P x)} l :
  sortedByTime l -> sortedByTime (filter P l).
Proof.
  unfold sortedByTime. induction 1 as [|y l Hsorted IH Hall].
  - constructor.
  - rewrite filter_cons. destruct (decide (P y)); [|exact IH].
    constructor; [exact IH|].
    apply Forall_forall. intros z Hz.
    apply list_elem_of_filter in Hz as [_ Hz].
    by eapply Forall_forall in Hall.
Qed.

(** Adding an entry leaves the entries sorted. *)
Lemma handleSaveEntry_add_sorted entryName entryTime nowId st :
  DailyLog.editingEntry st = None ->
  sortedByTime
    (DailyLog.foodEntries
       (DailyLog.handleSaveEntry entryName entryTime nowId st)).
Proof.
  intros Hadd. unfold DailyLog.handleSaveEntry. rewrite Hadd.
  cbn [DailyLog.setFoodEntries DailyLog.foodEntries].
  apply sortByTime_sorted.
Qed.

(** Deleting an entry leaves sorted entries sorted. *)
Lemma handleDeleteFood_sorted id0 st :
  sortedByTime (DailyLog.foodEntries st) ->
  sortedByTime (DailyLog.foodEntries (DailyLog.handleDeleteFood id0 st)).
Proof.
  intros Hsorted. unfold DailyLog.handleDeleteFood.
  cbn [DailyLog.setFoodEntries DailyLog.foodEntries].
  by apply filter_sorted.
Qed.

End EntryOrder.

(** C8 (the code departs from the claim).  On 2024-03-01 the user adds
    Soup at 12:00 and Toast at 08:00: the entries are Toast, Soup.  The
    user then edits Toast and gives it the time 13:00: the entries are
    still Toast, Soup, now at 13:00 and 12:00, which is not ascending. *)
Theorem edit_leaves_entries_unsorted :
  let at_ (h : Z) := mkDate 2024 3 1 (h * 3600000) in
  let st0 := DailyLog.initialState (at_ 10) in
  let st1 := DailyLog.handleSaveEntry "Soup" (at_ 12) "2" st0 in
  let st2 := DailyLog.handleSaveEntry "Toast" (at_ 8) "3" st1 in
  let toast := mkFoodEntry "3" "Toast" (getTime (at_ 8)) in
  let st3 := DailyLog.handleEditFood toast st2 in
  let st4 := DailyLog.handleSaveEntry "Toast" (at_ 13) "4" st3 in
  DailyLog.foodEntries st2
  = [toast; mkFoodEntry "2" "Soup" (getTime (at_ 12))]
  /\ sortedByTime (DailyLog.foodEntries st2)
  /\ DailyLog.foodEntries st4
     = [mkFoodEntry "3" "Toast" (getTime (at_ 13));
        mkFoodEntry "2" "Soup" (getTime (at_ 12))]
  /\ ~ sortedByTime (DailyLog.foodEntries st4).
Proof.
  cbv zeta.
  assert (H2 : DailyLog.foodEntries
            (DailyLog.handleSaveEntry "Toast" (mkDate 2024 3 1 (8 * 3600000))
               "3"
               (DailyLog.handleSaveEntry "Soup"
                  (mkDate 2024 3 1 (12 * 3600000)) "2"
                  (DailyLog.initialState (mkDate 2024 3 1 (10 * 3600000)))))
          = [mkFoodEntry "3" "Toast" (getTime (mkDate 2024 3 1 (8 * 3600000)));
             mkFoodEntry "2" "Soup" (getTime (mkDate 2024 3 1 (12 * 3600000)))])
    by (vm_compute; reflexivity).
  split; [exact H2|]. split.
  { apply handleSaveEntry_add_sorted. reflexivity. }
  match goal with
  | |- ?l = ?r /\ _ =>
      assert (H4 : l = r) by (vm_compute; reflexivity);
      split; [exact H4 | rewrite H4]
  end.
  intros Hsorted.
  inversion Hsorted as [|? ? _ Hall]; subst.
  inversion Hall as [|? ? Hle _]; subst.
  vm_compute in Hle. apply Hle. reflexivity.
Qed.

(** ** Month navigation of the chart *)

Section MonthNavigation.

Variable store : Storage.

Lemma addMonths_one d :
  1 <= month d <= 12 ->
  let y' := if month d <? 12 then year d else year d + 1 in
  let m' := if month d <? 12 then month d + 1 else 1 in
  addMonths d 1 = mkDate y' m' (Z.min (day d) (daysInMonth y' m')) (tod d).
Proof.
  intros Hm. cbv zeta. unfold addMonths.
  assert ((year d * 12 + (month d - 1) + 1) / 12
          = if month d <? 12 then year d else year d + 1) as ->.
  { destruct (Z.ltb_spec (month d) 12); Z.div_mod_to_equations; lia. }
  assert ((year d * 12 + (month d - 1) + 1) mod 12 + 1
          = if month d <? 12 then month d + 1 else 1) as ->.
  { destruct (Z.ltb_spec (month d) 12); Z.div_mod_to_equations; lia. }
  reflexivity.
Qed.

(** A next-month request that is accepted leads to a date that is not
    later than now. *)
Lemma handleMonthChange_next_accepted now st :
  Stats.handleMonthChange store Stats.next now st = st
  \/ (Stats.selectedMonth (Stats.handleMonthChange store Stats.next now st)
      = addMonths (Stats.selectedMonth st) 1
      /\ getTime (addMonths (Stats.selectedMonth st) 1) <= getTime now).
Proof.
  unfold Stats.handleMonthChange, Date_gtb. cbn [andb].
  destruct (Z.ltb_spec (getTime now)
              (getTime (addMonths (Stats.selectedMonth st) 1)));
    [by left | right]. split; [reflexivity | lia].
Qed.

(** A previous-month request is always accepted. *)
Lemma handleMonthChange_prev now st :
  Stats.selectedMonth (Stats.handleMonthChange store Stats.prev now st)
  = subMonths (Stats.selectedMonth st) 1.
Proof. reflexivity. Qed.


End MonthNavigation.

(** C9 (the code departs from the claim).  The screen is opened on
    2024-03-15 at 10:00 and is still there on 2024-04-10 at 09:00.  The
    selected month, March, is a past month, and the next-month button is
    enabled; the month asked for, April, is the current month; the request
    is refused, and the screen is unchanged. *)
Theorem next_month_refused_from_past_month :
  let opened := mkDate 2024 3 15 36000000 in
  let now := mkDate 2024 4 10 32400000 in
  let st := Stats.initialState opened in
  Stats.isCurrentMonth now st = false
  /\ format_ym (addMonths (Stats.selectedMonth st) 1) = format_ym now
  /\ forall store, Stats.handleMonthChange store Stats.next now st = st.
Proof.
  cbv zeta. split; [vm_compute; reflexivity|].
  split; [vm_compute; reflexivity|].
  intros store. reflexivity.
Qed.

(** ** Visiting a day that has no record *)

Section VisitAbsentDay.

Variable store : Storage.

Lemma ratingsOfDays_app y m k n1 n2 :
  0 <= n1 -> 0 <= n2 ->
  ratingsOfDays store y m k (n1 + n2)
  = ratingsOfDays store y m k n1 ++ ratingsOfDays store y m (k + n1) n2.
Proof.
  intros Hn1 Hn2. unfold ratingsOfDays.
  rewrite seqZ_app, omap_app by lia. reflexivity.
Qed.

(** The samples of the days 1..n, around a day [d] whose rating is set. *)
Lemma ratingsOfDays_around y m d n r :
  1 <= d <= n ->
  setRating store (mkDate y m d 0) = Some r ->
  ratingsOfDays store y m 1 n
  = ratingsOfDays store y m 1 (d - 1)
    ++ r :: ratingsOfDays store y m (d + 1) (n - d).
Proof.
  intros Hd Hr.
  assert (n = (d - 1) + (n - d + 1)) as Hn by lia.
  rewrite Hn at 1.
  rewrite ratingsOfDays_app by lia. apply (f_equal (app _)).
  assert (1 + (d - 1) = d) as -> by lia.
  rewrite ratingsOfDays_cons by lia. rewrite Hr.
  assert (n - d + 1 - 1 = n - d) as -> by lia. reflexivity.
Qed.



End VisitAbsentDay.

(** The store after the effects of a change of date holds, for the
    selected date, the record that the load gave to the screen. *)
Lemma effectsAfterDateChange_store store st :
  (DailyLog.effectsAfterDateChange store st).1
    !! DailyLog.getStorageKey (DailyLog.selectedDate st)
  = Some (recordOf (DailyLog.loadDayData store (DailyLog.selectedDate st) st)).
Proof.
  unfold DailyLog.effectsAfterDateChange. cbn [fst].
  unfold DailyLog.saveDayData at 1.
  replace (DailyLog.selectedDate
             (DailyLog.loadDayData store (DailyLog.selectedDate st) st))
    with (DailyLog.selectedDate st).
  - apply lookup_insert_eq.
  - unfold DailyLog.loadDayData.
    destruct (store !! DailyLog.getStorageKey (DailyLog.selectedDate st));
      reflexivity.
Qed.

(** After the effects, a date that had no record has the record of the
    defaults, and its rating reads as 5. *)
Lemma effectsAfterDateChange_absent store st :
  store !! DailyLog.getStorageKey (DailyLog.selectedDate st) = None ->
  (DailyLog.effectsAfterDateChange store st).1
    !! DailyLog.getStorageKey (DailyLog.selectedDate st)
  = Some (mkDayData [] false "" 5 "").
Proof.
  intros Habsent. rewrite effectsAfterDateChange_store.
  rewrite loadDayData_absent by exact Habsent. reflexivity.
Qed.

Lemma effectsAfterDateChange_setRating store st :
  store !! DailyLog.getStorageKey (DailyLog.selectedDate st) = None ->
  setRating (DailyLog.effectsAfterDateChange store st).1
    (mkDate (year (DailyLog.selectedDate st)) (month (DailyLog.selectedDate st))
            (day (DailyLog.selectedDate st)) 0)
  = Some 5.
Proof.
  intros Habsent. unfold setRating.
  change (Stats.dayKey
            (mkDate (year (DailyLog.selectedDate st))
                    (month (DailyLog.selectedDate st))
                    (day (DailyLog.selectedDate st)) 0))
    with (DailyLog.getStorageKey (DailyLog.selectedDate st)).
  rewrite effectsAfterDateChange_absent by exact Habsent. reflexivity.
Qed.

(** The same 5 is a sample of the previous average, for every reference
    date of the month that follows. *)
Lemma visited_day_in_previous_average store st sst today :
  let date := DailyLog.selectedDate st in
  let store' := (DailyLog.effectsAfterDateChange store st).1 in
  validDate date ->
  store !! DailyLog.getStorageKey date = None ->
  validDate today ->
  previousMonth today = (year date, month date) ->
  exists sst',
    Stats.calculateMoodAverages store' today sst = Some sst'
    /\ Stats.previousAverage sst'
       = mean (ratingsOfDays store' (year date) (month date) 1 (day date - 1)
               ++ 5 :: ratingsOfDays store' (year date) (month date)
                         (day date + 1)
                         (daysInMonth (year date) (month date) - day date)).
Proof.
  cbv zeta. intros (Hm & Hd & Ht) Habsent Hvt Hprev.
  eexists. split.
  { apply calculateMoodAverages_spec. exact Hvt. }
  cbn [Stats.previousAverage]. rewrite Hprev. cbn [fst snd].
  rewrite (ratingsOfDays_around _ _ _ (day (DailyLog.selectedDate st)) _ 5)
    by (lia || by apply effectsAfterDateChange_setRating).
  reflexivity.
Qed.

(** A food logged on a day that was only visited is scored with the
    default rating: the screen opens on 2024-03-01 over the empty store,
    the user adds Pizza at 12:00, and the save effect runs. *)
Example food_on_visited_day_scores_5 :
  let opened := mkDate 2024 3 1 36000000 in
  let '(store1, st1) := DailyLog.mount ∅ opened in
  let st2 := DailyLog.handleSaveEntry "Pizza" (mkDate 2024 3 1 43200000)
               "1709294400000" st1 in
  let store2 := DailyLog.saveDayData store1 st2 in
  Stats.foodMoodCorrelations store2 !! "pizza"%string
  = Some (Stats.mkStat 5 1 5%Q).
Proof. vm_compute. reflexivity. Qed.



(** * Further properties of the code *)

(** ** The daily log under the user's events *)

Section DailyLogEvents.

Lemma saveDayData_lookup store st :
  DailyLog.saveDayData store st
    !! DailyLog.getStorageKey (DailyLog.selectedDate st)
  = Some (recordOf st).
Proof. unfold DailyLog.saveDayData. apply lookup_insert_eq. Qed.

Lemma saveDayData_lookup_ne store st k :
  k <> DailyLog.getStorageKey (DailyLog.selectedDate st) ->
  DailyLog.saveDayData store st !! k = store !! k.
Proof.
  intros Hk. unfold DailyLog.saveDayData. by rewrite lookup_insert_ne.
Qed.

Lemma selectedDate_loadDayData store date st :
  DailyLog.selectedDate (DailyLog.loadDayData store date st)
  = DailyLog.selectedDate st.
Proof.
  unfold DailyLog.loadDayData.
  destruct (store !! DailyLog.getStorageKey date); reflexivity.
Qed.

Lemma selectedDate_effectsAfterDateChange store st :
  DailyLog.selectedDate (DailyLog.effectsAfterDateChange store st).2
  = DailyLog.selectedDate st.
Proof. apply selectedDate_loadDayData. Qed.

Lemma effectsAfterDateChange_frame store st k :
  k <> DailyLog.getStorageKey (DailyLog.selectedDate st) ->
  (DailyLog.effectsAfterDateChange store st).1 !! k = store !! k.
Proof.
  intros Hk. unfold DailyLog.effectsAfterDateChange. cbn [fst].
  rewrite saveDayData_lookup_ne
    by (rewrite selectedDate_loadDayData; exact Hk).
  by apply saveDayData_lookup_ne.
Qed.

Lemma inSync_effectsAfterDateChange store st :
  inSync (DailyLog.effectsAfterDateChange store st).1
         (DailyLog.effectsAfterDateChange store st).2.
Proof.
  unfold inSync. rewrite selectedDate_effectsAfterDateChange.
  apply effectsAfterDateChange_store.
Qed.

Lemma inSync_saveWhen changed store st st' :
  inSync store st ->
  DailyLog.selectedDate st' = DailyLog.selectedDate st ->
  (changed = false -> recordOf st' = recordOf st) ->
  inSync (DailyLog.saveWhen changed store st').1
         (DailyLog.saveWhen changed store st').2.
Proof.
  unfold inSync, DailyLog.saveWhen. intros Hsync Hdate Hsame.
  destruct changed; cbn [fst snd].
  - apply saveDayData_lookup.
  - rewrite Hdate, Hsame by reflexivity. exact Hsync.
Qed.

Lemma inSync_step store st ev :
  inSync store st ->
  inSync (DailyLog.step store st ev).1 (DailyLog.step store st ev).2.
Proof.
  intros Hsync. destruct ev; cbn [DailyLog.step].
  1, 2: apply inSync_effectsAfterDateChange.
  1, 2, 9: exact Hsync.
  all: apply (inSync_saveWhen _ store st); try exact Hsync;
    try reflexivity; try discriminate.
  - intros Hsame. apply negb_false_iff, String.eqb_eq in Hsame.
    unfold recordOf. cbn. by rewrite Hsame.
  - intros Hsame. apply negb_false_iff, Z.eqb_eq in Hsame.
    unfold recordOf. cbn. by rewrite Hsame.
  - intros Hsame. apply negb_false_iff, String.eqb_eq in Hsame.
    unfold recordOf. cbn. by rewrite Hsame.
  - unfold DailyLog.handleSaveEntry.
    destruct (DailyLog.editingEntry st); reflexivity.
Qed.

End DailyLogEvents.

(** X1. Whatever the user does on a mounted daily log, the store holds,
    for the selected date, exactly the record the screen shows. *)
Theorem reachable_inSync (store0 : Storage) (now : Date)
    (store : Storage) (st : DailyLog.State) :
  DailyLog.reachable store0 now store st -> inSync store st.
Proof.
  induction 1 as [|store st ev _ IH _].
  - apply inSync_effectsAfterDateChange.
  - by apply inSync_step.
Qed.

Lemma reachable_inSync_witness :
  let now := mkDate 2024 3 1 36000000 in
  let mounted := DailyLog.mount scenarioStore now in
  let moved := DailyLog.step mounted.1 mounted.2 DailyLog.PressNextDay in
  let rated := DailyLog.step moved.1 moved.2 (DailyLog.SelectMood 8) in
  DailyLog.reachable scenarioStore now rated.1 rated.2
  /\ inSync rated.1 rated.2.
Proof.
  cbv zeta.
  assert (Hrun : DailyLog.reachable scenarioStore (mkDate 2024 3 1 36000000)
            (DailyLog.step
               (DailyLog.step
                  (DailyLog.mount scenarioStore (mkDate 2024 3 1 36000000)).1
                  (DailyLog.mount scenarioStore (mkDate 2024 3 1 36000000)).2
                  DailyLog.PressNextDay).1
               (DailyLog.step
                  (DailyLog.mount scenarioStore (mkDate 2024 3 1 36000000)).1
                  (DailyLog.mount scenarioStore (mkDate 2024 3 1 36000000)).2
                  DailyLog.PressNextDay).2
               (DailyLog.SelectMood 8)).1
            (DailyLog.step
               (DailyLog.step
                  (DailyLog.mount scenarioStore (mkDate 2024 3 1 36000000)).1
                  (DailyLog.mount scenarioStore (mkDate 2024 3 1 36000000)).2
                  DailyLog.PressNextDay).1
               (DailyLog.step
                  (DailyLog.mount scenarioStore (mkDate 2024 3 1 36000000)).1
                  (DailyLog.mount scenarioStore (mkDate 2024 3 1 36000000)).2
                  DailyLog.PressNextDay).2
               (DailyLog.SelectMood 8)).2).
  { apply DailyLog.reachable_step.
    - apply DailyLog.reachable_step; [apply DailyLog.reachable_mount | exact I].
    - cbn. tauto. }
  split; [exact Hrun|].
  exact (reachable_inSync _ _ _ _ Hrun).
Defined.

Section RatingRange.

Lemma inRange_MOOD_OPTIONS value :
  In value DailyLog.MOOD_OPTIONS -> inRange value.
Proof.
  unfold DailyLog.MOOD_OPTIONS, inRange. cbn.
  intros H. repeat (destruct H as [<-|H]; [lia|]). destruct H.
Qed.

Lemma ratingsInRange_saveDayData store st :
  ratingsInRange store -> inRange (DailyLog.moodRating st) ->
  ratingsInRange (DailyLog.saveDayData store st).
Proof.
  intros Hstore Hst key dayData. unfold DailyLog.saveDayData.
  destruct (decide (key = DailyLog.getStorageKey (DailyLog.selectedDate st)))
    as [->|Hne].
  - rewrite lookup_insert_eq. intros [= <-]. exact Hst.
  - rewrite lookup_insert_ne by congruence. apply Hstore.
Qed.

Lemma inRange_loadDayData store date st :
  ratingsInRange store ->
  inRange (DailyLog.moodRating (DailyLog.loadDayData store date st)).
Proof.
  intros Hstore. unfold DailyLog.loadDayData.
  destruct (store !! DailyLog.getStorageKey date) as [dayData|] eqn:Hlook.
  - exact (Hstore _ _ Hlook).
  - unfold inRange. cbn. lia.
Qed.

Lemma ratingsInRange_effectsAfterDateChange store st :
  ratingsInRange store -> inRange (DailyLog.moodRating st) ->
  ratingsInRange (DailyLog.effectsAfterDateChange store st).1
  /\ inRange (DailyLog.moodRating (DailyLog.effectsAfterDateChange store st).2).
Proof.
  intros Hstore Hst. unfold DailyLog.effectsAfterDateChange. cbn [fst snd].
  split; [|by apply inRange_loadDayData].
  apply ratingsInRange_saveDayData; [|by apply inRange_loadDayData].
  by apply ratingsInRange_saveDayData.
Qed.

Lemma ratingsInRange_saveWhen changed store st :
  ratingsInRange store -> inRange (DailyLog.moodRating st) ->
  ratingsInRange (DailyLog.saveWhen changed store st).1
  /\ inRange (DailyLog.moodRating (DailyLog.saveWhen changed store st).2).
Proof.
  intros Hstore Hst. unfold DailyLog.saveWhen. cbn [fst snd].
  split; [|exact Hst].
  destruct changed; [by apply ratingsInRange_saveDayData | exact Hstore].
Qed.

Lemma ratingsInRange_step store st ev :
  DailyLog.enabled st ev ->
  ratingsInRange store -> inRange (DailyLog.moodRating st) ->
  ratingsInRange (DailyLog.step store st ev).1
  /\ inRange (DailyLog.moodRating (DailyLog.step store st ev).2).
Proof.
  intros Hen Hstore Hst. destruct ev; cbn [DailyLog.step].
  1, 2: by apply ratingsInRange_effectsAfterDateChange.
  1, 2, 9: by split.
  all: apply ratingsInRange_saveWhen; try exact Hstore; try exact Hst.
  - by apply inRange_MOOD_OPTIONS.
  - unfold DailyLog.handleSaveEntry.
    destruct (DailyLog.editingEntry st); exact Hst.
Qed.

End RatingRange.

(** X2. If every record of the store has a mood rating in 1..10 when the
    daily log is mounted, then whatever the user does, every record of the
    store and the rating on the screen stay in 1..10: the screen never
    writes a rating out of the range. *)
Theorem reachable_ratingsInRange (store0 : Storage) (now : Date)
    (store : Storage) (st : DailyLog.State) :
  ratingsInRange store0 ->
  DailyLog.reachable store0 now store st ->
  ratingsInRange store /\ inRange (DailyLog.moodRating st).
Proof.
  intros Hstore0. induction 1 as [|store st ev _ [IHstore IHst] Hen].
  - apply ratingsInRange_effectsAfterDateChange; [exact Hstore0|].
    unfold inRange. cbn. lia.
  - by apply ratingsInRange_step.
Qed.

Lemma reachable_ratingsInRange_witness :
  let now := mkDate 2024 3 1 36000000 in
  let mounted := DailyLog.mount scenarioStore now in
  let rated := DailyLog.step mounted.1 mounted.2 (DailyLog.SelectMood 8) in
  ratingsInRange scenarioStore
  /\ DailyLog.reachable scenarioStore now rated.1 rated.2
  /\ ratingsInRange rated.1 /\ inRange (DailyLog.moodRating rated.2).
Proof.
  cbv zeta.
  assert (Hstore : ratingsInRange scenarioStore).
  { intros key dayData. unfold scenarioStore.
    rewrite !lookup_insert. repeat case_decide.
    - intros [= <-]. unfold inRange. cbn. lia.
    - intros [= <-]. unfold inRange. cbn. lia.
    - rewrite lookup_empty. discriminate. }
  assert (Hrun : DailyLog.reachable scenarioStore (mkDate 2024 3 1 36000000)
            (DailyLog.step
               (DailyLog.mount scenarioStore (mkDate 2024 3 1 36000000)).1
               (DailyLog.mount scenarioStore (mkDate 2024 3 1 36000000)).2
               (DailyLog.SelectMood 8)).1
            (DailyLog.step
               (DailyLog.mount scenarioStore (mkDate 2024 3 1 36000000)).1
               (DailyLog.mount scenarioStore (mkDate 2024 3 1 36000000)).2
               (DailyLog.SelectMood 8)).2).
  { apply DailyLog.reachable_step; [apply DailyLog.reachable_mount|].
    cbn. tauto. }
  split; [exact Hstore|]. split; [exact Hrun|].
  exact (reachable_ratingsInRange _ _ _ _ Hstore Hrun).
Defined.

(** X3. An event, with the effects that follow it, changes the store at
    most under the key of the date that is selected after it: the records
    of the other days are untouched. *)
Theorem step_touches_selected_key_only (store : Storage)
    (st : DailyLog.State) (ev : DailyLog.Event) (key : string) :
  key <> DailyLog.getStorageKey
           (DailyLog.selectedDate (DailyLog.step store st ev).2) ->
  (DailyLog.step store st ev).1 !! key = store !! key.
Proof.
  destruct ev; cbn [DailyLog.step]; intros Hkey.
  1, 2: rewrite selectedDate_effectsAfterDateChange in Hkey;
        by apply effectsAfterDateChange_frame.
  1, 2, 9: reflexivity.
  all: unfold DailyLog.saveWhen in *; cbn [fst snd] in *;
    match goal with
    | |- (if ?c then _ else _) !! _ = _ =>
        destruct c; [by apply saveDayData_lookup_ne | reflexivity]
    | |- _ => by apply saveDayData_lookup_ne
    end.
Qed.

Lemma step_touches_selected_key_only_witness :
  let now := mkDate 2024 3 2 36000000 in
  let mounted := DailyLog.mount scenarioStore now in
  let other := DailyLog.getStorageKey (mkDate 2024 3 1 0) in
  other <> DailyLog.getStorageKey
             (DailyLog.selectedDate
                (DailyLog.step mounted.1 mounted.2 (DailyLog.SelectMood 9)).2)
  /\ (DailyLog.step mounted.1 mounted.2 (DailyLog.SelectMood 9)).1 !! other
     = mounted.1 !! other.
Proof.
  cbv zeta.
  assert (Hne : DailyLog.getStorageKey (mkDate 2024 3 1 0)
                <> DailyLog.getStorageKey
                     (DailyLog.selectedDate
                        (DailyLog.step
                           (DailyLog.mount scenarioStore
                              (mkDate 2024 3 2 36000000)).1
                           (DailyLog.mount scenarioStore
                              (mkDate 2024 3 2 36000000)).2
                           (DailyLog.SelectMood 9)).2))
    by (vm_compute; discriminate).
  split; [exact Hne|].
  exact (step_touches_selected_key_only _ _ _ _ Hne).
Defined.

Lemma effectsAfterDateChange_recorded (store : Storage)
    (st : DailyLog.State) (dayData : DayData) :
  store !! DailyLog.getStorageKey (DailyLog.selectedDate st) = Some dayData ->
  (DailyLog.effectsAfterDateChange store st).1 = store
  /\ recordOf (DailyLog.effectsAfterDateChange store st).2 = dayData.
Proof.
  intros Hstored. unfold DailyLog.effectsAfterDateChange. cbn [fst snd].
  assert (Hloaded : recordOf (DailyLog.loadDayData store
                                (DailyLog.selectedDate st) st) = dayData).
  { unfold DailyLog.loadDayData. rewrite Hstored. by destruct dayData. }
  split; [|exact Hloaded].
  unfold DailyLog.saveDayData at 1. rewrite selectedDate_loadDayData.
  fold (recordOf (DailyLog.loadDayData store (DailyLog.selectedDate st) st)).
  rewrite Hloaded. unfold DailyLog.saveDayData.
  rewrite insert_insert_eq. by apply insert_id.
Qed.

(** X4. Moving to a date that has a stored record leaves the whole store
    as it was, and gives the screen that record: the write of the record
    the screen held before, under the key of the new date, is undone by the
    write that follows the load. *)
Theorem visiting_recorded_day_keeps_store (store : Storage)
    (st : DailyLog.State) (dayData : DayData) :
  store !! DailyLog.getStorageKey (DailyLog.selectedDate st) = Some dayData ->
  (DailyLog.effectsAfterDateChange store st).1 = store
  /\ recordOf (DailyLog.effectsAfterDateChange store st).2 = dayData.
Proof. apply effectsAfterDateChange_recorded. Qed.

Lemma visiting_recorded_day_keeps_store_witness :
  let st := DailyLog.setMoodRating 9
              (DailyLog.initialState (mkDate 2024 3 1 36000000)) in
  let dayData :=
    mkDayData
      [mkFoodEntry "1709294400000" "Pizza"
         (getTime (mkDate 2024 3 1 (12 * 3600000)))]
      false "" 8 "" in
  scenarioStore !! DailyLog.getStorageKey (DailyLog.selectedDate st)
  = Some dayData
  /\ (DailyLog.effectsAfterDateChange scenarioStore st).1 = scenarioStore
  /\ recordOf (DailyLog.effectsAfterDateChange scenarioStore st).2 = dayData.
Proof.
  cbv zeta.
  assert (Hstored :
            scenarioStore
              !! DailyLog.getStorageKey
                   (DailyLog.selectedDate
                      (DailyLog.setMoodRating 9
                         (DailyLog.initialState (mkDate 2024 3 1 36000000))))
            = Some (mkDayData
                      [mkFoodEntry "1709294400000" "Pizza"
                         (getTime (mkDate 2024 3 1 (12 * 3600000)))]
                      false "" 8 ""))
    by (vm_compute; reflexivity).
  split; [exact Hstored|].
  exact (visiting_recorded_day_keeps_store _ _ _ Hstored).
Defined.

(** ** Storage keys and days *)

Section StorageKeys.

Lemma digit_inj a b : digit a = digit b -> a mod 10 = b mod 10.
Proof.
  unfold digit. intros [= H].
  apply (f_equal nat_of_ascii) in H.
  pose proof (Z.mod_pos_bound a 10 ltac:(lia)).
  pose proof (Z.mod_pos_bound b 10 ltac:(lia)).
  rewrite !nat_ascii_embedding in H by lia. lia.
Qed.

Lemma string_app_assoc (s t u : string) : (s +:+ t) +:+ u = s +:+ t +:+ u.
Proof.
  induction s as [|c s IH]; [reflexivity|].
  change (String c ((s +:+ t) +:+ u) = String c (s +:+ t +:+ u)).
  by rewrite IH.
Qed.

Lemma string_app_nil_r (s : string) : s +:+ "" = s.
Proof.
  induction s as [|c s IH]; [reflexivity|].
  change (String c (s +:+ "") = String c s). by rewrite IH.
Qed.

Lemma string_cons_inj (c : ascii) (s t : string) :
  String c s = String c t -> s = t.
Proof. by intros [= ->]. Qed.

Lemma digit_append_inj a b (s t : string) :
  digit a +:+ s = digit b +:+ t -> digit a = digit b /\ s = t.
Proof.
  unfold digit.
  change (String ?c "" +:+ ?r) with (String c r).
  intros H. injection H as H1 H2.
  split; [exact (f_equal (fun c => String c "") H1) | exact H2].
Qed.

Lemma pad2_append_inj a b (s t : string) :
  0 <= a < 100 -> 0 <= b < 100 ->
  pad2 a +:+ s = pad2 b +:+ t -> a = b /\ s = t.
Proof.
  unfold pad2. intros Ha Hb H. rewrite !string_app_assoc in H.
  apply digit_append_inj in H as [H1 H].
  apply digit_append_inj in H as [H2 H].
  apply digit_inj in H1, H2. split; [|exact H].
  Z.div_mod_to_equations. lia.
Qed.

Lemma pad4_append_inj a b (s t : string) :
  0 <= a < 10000 -> 0 <= b < 10000 ->
  pad4 a +:+ s = pad4 b +:+ t -> a = b /\ s = t.
Proof.
  unfold pad4. intros Ha Hb H. rewrite !string_app_assoc in H.
  apply digit_append_inj in H as [H1 H].
  apply digit_append_inj in H as [H2 H].
  apply digit_append_inj in H as [H3 H].
  apply digit_append_inj in H as [H4 H].
  apply digit_inj in H1, H2, H3, H4. split; [|exact H].
  Z.div_mod_to_equations. lia.
Qed.

Lemma format_ymd_inj d1 d2 :
  0 <= year d1 < 10000 -> 0 <= month d1 < 100 -> 0 <= day d1 < 100 ->
  0 <= year d2 < 10000 -> 0 <= month d2 < 100 -> 0 <= day d2 < 100 ->
  format_ymd d1 = format_ymd d2 ->
  year d1 = year d2 /\ month d1 = month d2 /\ day d1 = day d2.
Proof.
  intros Hy1 Hm1 Hd1 Hy2 Hm2 Hd2 H. unfold format_ymd in H.
  apply pad4_append_inj in H as [Hy H]; [|lia|lia].
  apply (string_cons_inj "-"%char) in H.
  apply pad2_append_inj in H as [Hm H]; [|lia|lia].
  apply (string_cons_inj "-"%char) in H.
  rewrite <- (string_app_nil_r (pad2 (day d1))) in H.
  rewrite <- (string_app_nil_r (pad2 (day d2))) in H.
  apply pad2_append_inj in H as [Hd _]; [|lia|lia].
  by repeat split.
Qed.

Lemma getStorageKey_inj d1 d2 :
  validDate d1 -> validDate d2 ->
  0 <= year d1 <= 9999 -> 0 <= year d2 <= 9999 ->
  DailyLog.getStorageKey d1 = DailyLog.getStorageKey d2 ->
  year d1 = year d2 /\ month d1 = month d2 /\ day d1 = day d2.
Proof.
  intros (Hm1 & Hd1 & _) (Hm2 & Hd2 & _) Hy1 Hy2.
  pose proof (daysInMonth_bounds (year d1) (month d1)) as Hb1.
  pose proof (daysInMonth_bounds (year d2) (month d2)) as Hb2.
  unfold DailyLog.getStorageKey. intros Hkey.
  do 8 apply string_cons_inj in Hkey.
  apply format_ymd_inj; (lia || exact Hkey).
Qed.

End StorageKeys.



Section DayNavigation.

Lemma prevDay_nextDay d : validDate d -> prevDay (nextDay d) = d.
Proof.
  destruct d as [y m dd t]. unfold validDate, nextDay, prevDay.
  cbn [year month day tod]. intros (Hm & Hd & _).
  destruct (Z.ltb_spec dd (daysInMonth y m)); cbn [year month day tod].
  - destruct (Z.ltb_spec 1 (dd + 1)); [|lia]. f_equal. lia.
  - assert (dd = daysInMonth y m) as -> by lia.
    destruct (Z.ltb_spec m 12); cbn [year month day tod].
    + destruct (Z.ltb_spec 1 (m + 1)); [|lia].
      replace (m + 1 - 1) with m by lia. reflexivity.
    + assert (m = 12) as -> by lia. cbn.
      replace (y + 1 - 1) with y by lia. reflexivity.
Qed.

Lemma nextDay_prevDay d : validDate d -> nextDay (prevDay d) = d.
Proof.
  destruct d as [y m dd t]. unfold validDate, nextDay, prevDay.
  cbn [year month day tod]. intros (Hm & Hd & _).
  destruct (Z.ltb_spec 1 dd); cbn [year month day tod].
  - destruct (Z.ltb_spec (dd - 1) (daysInMonth y m)); [|lia]. f_equal. lia.
  - assert (dd = 1) as -> by lia.
    destruct (Z.ltb_spec 1 m); cbn [year month day tod].
    + rewrite Z.ltb_irrefl.
      destruct (Z.ltb_spec (m - 1) 12); [|lia].
      replace (m - 1 + 1) with m by lia. reflexivity.
    + assert (m = 1) as -> by lia. cbn.
      replace (y - 1 + 1) with y by lia. reflexivity.
Qed.

Lemma nextDay_other_day d :
  validDate d ->
  ~ (year (nextDay d) = year d /\ month (nextDay d) = month d
     /\ day (nextDay d) = day d).
Proof.
  destruct d as [y m dd t]. unfold validDate, nextDay.
  cbn [year month day tod]. intros (Hm & Hd & _).
  destruct (Z.ltb_spec dd (daysInMonth y m)); cbn [year month day tod];
    [lia|].
  destruct (Z.ltb_spec m 12); cbn [year month day tod]; lia.
Qed.

Lemma year_nextDay d :
  validDate d -> year d <= year (nextDay d) <= year d + 1.
Proof.
  destruct d as [y m dd t]. unfold nextDay. cbn [year month day tod].
  intros _. destruct (dd <? daysInMonth y m); [cbn; lia|].
  destruct (m <? 12); cbn; lia.
Qed.

End DayNavigation.

(** X6. From a screen whose record is stored, on a valid date of the
    years 0..9998: going to the next day and back selects the same date
    again, shows the same record again, and leaves that record stored; the
    way back writes nothing that the way forth had not written. *)
Theorem next_day_and_back (store : Storage) (st : DailyLog.State) :
  inSync store st ->
  validDate (DailyLog.selectedDate st) ->
  0 <= year (DailyLog.selectedDate st) <= 9998 ->
  let forth := DailyLog.step store st DailyLog.PressNextDay in
  let back := DailyLog.step forth.1 forth.2 DailyLog.PressPreviousDay in
  DailyLog.selectedDate back.2 = DailyLog.selectedDate st
  /\ recordOf back.2 = recordOf st
  /\ back.1 !! DailyLog.getStorageKey (DailyLog.selectedDate st)
     = Some (recordOf st)
  /\ back.1 = forth.1.
Proof.
  intros Hsync Hv Hy. cbv zeta. cbn [DailyLog.step].
  set (st1 := DailyLog.handleDateChange 1 st).
  set (forth := DailyLog.effectsAfterDateChange store st1).
  set (st2 := DailyLog.handleDateChange (-1) forth.2).
  assert (Hdate1 : DailyLog.selectedDate st1
                   = nextDay (DailyLog.selectedDate st)) by reflexivity.
  assert (Hdate2 : DailyLog.selectedDate st2 = DailyLog.selectedDate st).
  { subst st2 forth. unfold DailyLog.handleDateChange at 1.
    cbn [DailyLog.setSelectedDate DailyLog.selectedDate].
    rewrite selectedDate_effectsAfterDateChange, Hdate1.
    change (subDays (nextDay (DailyLog.selectedDate st)) (Z.abs (-1)))
      with (prevDay (nextDay (DailyLog.selectedDate st))).
    by apply prevDay_nextDay. }
  assert (Hkept : forth.1 !! DailyLog.getStorageKey (DailyLog.selectedDate st)
                  = Some (recordOf st)).
  { subst forth. rewrite effectsAfterDateChange_frame; [exact Hsync|].
    rewrite Hdate1. intros Hkey. symmetry in Hkey.
    apply getStorageKey_inj in Hkey.
    - by apply (nextDay_other_day (DailyLog.selectedDate st)).
    - by apply validDate_nextDay.
    - exact Hv.
    - pose proof (year_nextDay _ Hv). lia.
    - lia. }
  destruct (effectsAfterDateChange_recorded forth.1 st2 (recordOf st))
    as [Hstore Hrecord].
  { rewrite Hdate2. exact Hkept. }
  split; [by rewrite selectedDate_effectsAfterDateChange|].
  split; [exact Hrecord|]. split; [|exact Hstore].
  rewrite Hstore. exact Hkept.
Qed.

Lemma next_day_and_back_witness :
  let mounted := DailyLog.mount scenarioStore (mkDate 2024 2 29 36000000) in
  let forth := DailyLog.step mounted.1 mounted.2 DailyLog.PressNextDay in
  let back := DailyLog.step forth.1 forth.2 DailyLog.PressPreviousDay in
  inSync mounted.1 mounted.2
  /\ validDate (DailyLog.selectedDate mounted.2)
  /\ 0 <= year (DailyLog.selectedDate mounted.2) <= 9998
  /\ DailyLog.selectedDate back.2 = DailyLog.selectedDate mounted.2
  /\ recordOf back.2 = recordOf mounted.2
  /\ back.1 !! DailyLog.getStorageKey (DailyLog.selectedDate mounted.2)
     = Some (recordOf mounted.2)
  /\ back.1 = forth.1.
Proof.
  cbv zeta.
  assert (Hsync : inSync
            (DailyLog.mount scenarioStore (mkDate 2024 2 29 36000000)).1
            (DailyLog.mount scenarioStore (mkDate 2024 2 29 36000000)).2)
    by apply inSync_effectsAfterDateChange.
  assert (Hv : validDate
            (DailyLog.selectedDate
               (DailyLog.mount scenarioStore (mkDate 2024 2 29 36000000)).2))
    by (unfold DailyLog.mount; rewrite selectedDate_effectsAfterDateChange;
        vm_compute; repeat split; (discriminate || reflexivity)).
  assert (Hy : 0 <= year
            (DailyLog.selectedDate
               (DailyLog.mount scenarioStore (mkDate 2024 2 29 36000000)).2)
            <= 9998)
    by (unfold DailyLog.mount; rewrite selectedDate_effectsAfterDateChange;
        cbn; lia).
  split; [exact Hsync|]. split; [exact Hv|]. split; [exact Hy|].
  exact (next_day_and_back _ _ Hsync Hv Hy).
Defined.

(** ** Adding, deleting and editing food entries *)

Section Entries.

Lemma insertByTime_Permutation x l : insertByTime x l ≡ₚ x :: l.
Proof.
  induction l as [|y l IH]; cbn [insertByTime]; [reflexivity|].
  destruct (time x <=? time y); [reflexivity|].
  rewrite IH. apply Permutation_swap.
Qed.

Lemma sortByTime_Permutation l : sortByTime l ≡ₚ l.
Proof.
  unfold sortByTime. induction l as [|x l IH]; cbn [foldr]; [reflexivity|].
  by rewrite insertByTime_Permutation, IH.
Qed.

Lemma insertByTime_head x l :
  Forall (fun y => time x <= time y) l -> insertByTime x l = x :: l.
Proof.
  destruct 1 as [|y l Hy _]; cbn [insertByTime]; [reflexivity|].
  destruct (Z.leb_spec (time x) (time y)); [reflexivity | lia].
Qed.

(** Sorting does nothing to sorted entries. *)
Lemma sortByTime_sorted_id l : sortedByTime l -> sortByTime l = l.
Proof.
  unfold sortedByTime, sortByTime.
  induction 1 as [|x l _ IH Hall]; cbn [foldr]; [reflexivity|].
  rewrite IH. by apply insertByTime_head.
Qed.

Lemma filter_insertByTime (P : FoodEntry -> Prop)
    `{!forall x, Decision (P x)} a l :
  sortedByTime l -> P a ->
  filter P (insertByTime a l) = insertByTime a (filter P l).
Proof.
  unfold sortedByTime. intros Hsorted Ha.
  induction Hsorted as [|y l Hsorted IH Hall]; cbn [insertByTime].
  - by rewrite filter_cons_True.
  - destruct (Z.leb_spec (time a) (time y)) as [Hle|Hgt].
    + rewrite filter_cons_True by exact Ha.
      symmetry. apply insertByTime_head.
      apply Forall_forall. intros z Hz.
      apply list_elem_of_filter in Hz as [_ Hz].
      apply elem_of_cons in Hz as [->|Hz]; [exact Hle|].
      eapply Forall_forall in Hall; [|exact Hz]. cbn in Hall. lia.
    + rewrite !(filter_cons _ y). destruct (decide (P y)).
      * cbn [insertByTime].
        destruct (Z.leb_spec (time a) (time y)); [lia|]. by rewrite IH.
      * exact IH.
Qed.

Lemma foldr_insertByTime_sorted l acc :
  sortedByTime acc -> sortedByTime (foldr insertByTime acc l).
Proof.
  intros Hacc. induction l as [|x l IH]; cbn [foldr]; [exact Hacc|].
  by apply insertByTime_sorted.
Qed.

Lemma filter_sortByTime_snoc (P : FoodEntry -> Prop)
    `{!forall x, Decision (P x)} l x :
  Forall P l -> ~ P x ->
  filter P (sortByTime (l ++ [x])) = sortByTime l.
Proof.
  intros Hl Hx. unfold sortByTime. rewrite foldr_app. cbn [foldr].
  induction Hl as [|a l Ha _ IH]; cbn [foldr].
  - cbn [insertByTime]. by rewrite filter_cons_False.
  - rewrite filter_insertByTime; [by rewrite IH | | exact Ha].
    apply foldr_insertByTime_sorted. repeat constructor.
Qed.

End Entries.

(** X7. Adding an entry (no entry is being edited) gives the entries it
    had together with the new one, none lost and none twice, in ascending
    order of time, whatever their order was before. *)
Theorem handleSaveEntry_add (entryName : string) (entryTime : Date)
    (nowId : string) (st : DailyLog.State) :
  DailyLog.editingEntry st = None ->
  let adjustedTime :=
    setMinutes (getMinutes entryTime)
      (setHours (getHours entryTime) (DailyLog.selectedDate st)) in
  let newEntry := mkFoodEntry nowId entryName (getTime adjustedTime) in
  let entries :=
    DailyLog.foodEntries
      (DailyLog.handleSaveEntry entryName entryTime nowId st) in
  entries ≡ₚ DailyLog.foodEntries st ++ [newEntry]
  /\ sortedByTime entries.
Proof.
  intros Hadd. cbv zeta. unfold DailyLog.handleSaveEntry. rewrite Hadd.
  cbn [DailyLog.setFoodEntries DailyLog.foodEntries].
  split; [apply sortByTime_Permutation | apply sortByTime_sorted].
Qed.

Lemma handleSaveEntry_add_witness :
  let st := DailyLog.initialState (mkDate 2024 3 1 36000000) in
  let entryTime := mkDate 2024 3 1 43200000 in
  let adjustedTime :=
    setMinutes (getMinutes entryTime)
      (setHours (getHours entryTime) (DailyLog.selectedDate st)) in
  let newEntry := mkFoodEntry "1" "Soup" (getTime adjustedTime) in
  let entries :=
    DailyLog.foodEntries (DailyLog.handleSaveEntry "Soup" entryTime "1" st) in
  DailyLog.editingEntry st = None
  /\ entries ≡ₚ DailyLog.foodEntries st ++ [newEntry]
  /\ sortedByTime entries.
Proof.
  cbv zeta. split; [reflexivity|].
  exact (handleSaveEntry_add "Soup" (mkDate 2024 3 1 43200000) "1"
           (DailyLog.initialState (mkDate 2024 3 1 36000000)) eq_refl).
Defined.

(** X8. Deleting by id removes every entry with that id and no other, and
    keeps the remaining entries in their order; sorted entries stay
    sorted. *)
Theorem handleDeleteFood_removes (itemId : string) (st : DailyLog.State) :
  let entries :=
    DailyLog.foodEntries (DailyLog.handleDeleteFood itemId st) in
  (forall entry, entry ∈ entries
                 <-> entry ∈ DailyLog.foodEntries st /\ id entry <> itemId)
  /\ entries `sublist_of` DailyLog.foodEntries st
  /\ (sortedByTime (DailyLog.foodEntries st) -> sortedByTime entries).
Proof.
  cbv zeta. unfold DailyLog.handleDeleteFood.
  cbn [DailyLog.setFoodEntries DailyLog.foodEntries].
  split; [|split].
  - intros entry. rewrite list_elem_of_filter. tauto.
  - apply sublist_filter.
  - apply filter_sorted.
Qed.

(** X9. Adding an entry under a fresh id and deleting it again gives the
    entries that were there, in ascending order of time; they are the very
    entries as they were when these were sorted. *)
Theorem add_then_delete (entryName : string) (entryTime : Date)
    (nowId : string) (st : DailyLog.State) :
  DailyLog.editingEntry st = None ->
  Forall (fun entry => id entry <> nowId) (DailyLog.foodEntries st) ->
  let entries :=
    DailyLog.foodEntries
      (DailyLog.handleDeleteFood nowId
         (DailyLog.handleSaveEntry entryName entryTime nowId st)) in
  entries = sortByTime (DailyLog.foodEntries st)
  /\ (sortedByTime (DailyLog.foodEntries st) ->
      entries = DailyLog.foodEntries st).
Proof.
  intros Hadd Hfresh. cbv zeta.
  unfold DailyLog.handleDeleteFood, DailyLog.handleSaveEntry. rewrite Hadd.
  cbn [DailyLog.setFoodEntries DailyLog.foodEntries].
  assert (Heq : filter (fun entry => id entry <> nowId)
                  (sortByTime
                     (DailyLog.foodEntries st
                      ++ [mkFoodEntry nowId entryName
                            (getTime
                               (setMinutes (getMinutes entryTime)
                                  (setHours (getHours entryTime)
                                     (DailyLog.selectedDate st))))]))
                = sortByTime (DailyLog.foodEntries st)).
  { apply filter_sortByTime_snoc; [exact Hfresh|]. cbn. tauto. }
  split; [exact Heq|].
  intros Hsorted. rewrite Heq. by apply sortByTime_sorted_id.
Qed.

Lemma add_then_delete_witness :
  let st0 := DailyLog.initialState (mkDate 2024 3 1 36000000) in
  let st := DailyLog.handleSaveEntry "Soup" (mkDate 2024 3 1 43200000) "1"
              st0 in
  let entries :=
    DailyLog.foodEntries
      (DailyLog.handleDeleteFood "2"
         (DailyLog.handleSaveEntry "Toast" (mkDate 2024 3 1 28800000) "2"
            st)) in
  DailyLog.editingEntry st = None
  /\ Forall (fun entry => id entry <> "2"%string) (DailyLog.foodEntries st)
  /\ entries = sortByTime (DailyLog.foodEntries st)
  /\ (sortedByTime (DailyLog.foodEntries st) ->
      entries = DailyLog.foodEntries st).
Proof.
  cbv zeta.
  assert (Hfresh :
            Forall (fun entry => id entry <> "2"%string)
              (DailyLog.foodEntries
                 (DailyLog.handleSaveEntry "Soup" (mkDate 2024 3 1 43200000)
                    "1" (DailyLog.initialState (mkDate 2024 3 1 36000000))))).
  { repeat constructor. cbn. discriminate. }
  split; [reflexivity|]. split; [exact Hfresh|].
  exact (add_then_delete "Toast" (mkDate 2024 3 1 28800000) "2"
           (DailyLog.handleSaveEntry "Soup" (mkDate 2024 3 1 43200000) "1"
              (DailyLog.initialState (mkDate 2024 3 1 36000000)))
           eq_refl Hfresh).
Defined.

(** X10. Saving the dialog while an entry is being edited keeps every
    entry at its place: the entries with the id of the edited one get the
    new name and the new time, the others are untouched, none is added or
    removed, and no entry is being edited afterwards. *)
Theorem handleSaveEntry_edit (entryName : string) (entryTime : Date)
    (nowId : string) (st : DailyLog.State) (editing : FoodEntry) :
  DailyLog.editingEntry st = Some editing ->
  let adjustedTime :=
    setMinutes (getMinutes entryTime)
      (setHours (getHours entryTime) (DailyLog.selectedDate st)) in
  let st' := DailyLog.handleSaveEntry entryName entryTime nowId st in
  DailyLog.editingEntry st' = None
  /\ map id (DailyLog.foodEntries st') = map id (DailyLog.foodEntries st)
  /\ forall (i : nat) (item : FoodEntry),
       DailyLog.foodEntries st !! i = Some item ->
       DailyLog.foodEntries st' !! i
       = Some (if decide (id item = id editing)
               then mkFoodEntry (id item) entryName (getTime adjustedTime)
               else item).
Proof.
  intros Hedit. cbv zeta. unfold DailyLog.handleSaveEntry. rewrite Hedit.
  cbn [DailyLog.setEditingEntry DailyLog.setFoodEntries
       DailyLog.foodEntries DailyLog.editingEntry].
  split; [reflexivity|]. split.
  - rewrite map_map. apply map_ext. intros item.
    destruct (decide (id item = id editing)); reflexivity.
  - intros i item Hitem.
    change (map ?f ?l) with (f <$> l).
    by rewrite list_lookup_fmap, Hitem.
Qed.

Lemma handleSaveEntry_edit_witness :
  let soup := mkFoodEntry "1" "Soup" 1709294400000 in
  let st := DailyLog.handleEditFood soup
              (DailyLog.setFoodEntries [soup]
                 (DailyLog.initialState (mkDate 2024 3 1 36000000))) in
  let st' := DailyLog.handleSaveEntry "Stew" (mkDate 2024 3 1 46800000) "2"
               st in
  DailyLog.editingEntry st = Some soup
  /\ DailyLog.editingEntry st' = None
  /\ map id (DailyLog.foodEntries st') = map id (DailyLog.foodEntries st).
Proof.
  cbv zeta. split; [reflexivity|].
  pose proof (handleSaveEntry_edit "Stew" (mkDate 2024 3 1 46800000) "2"
                (DailyLog.handleEditFood (mkFoodEntry "1" "Soup" 1709294400000)
                   (DailyLog.setFoodEntries
                      [mkFoodEntry "1" "Soup" 1709294400000]
                      (DailyLog.initialState (mkDate 2024 3 1 36000000))))
                (mkFoodEntry "1" "Soup" 1709294400000) eq_refl)
    as (Hnone & Hids & _).
  split; [exact Hnone | exact Hids].
Defined.

Section EntryTime.


End EntryTime.



(** ** The time fields of the entry dialog *)

Section DialogTime.







End DialogTime.





(** ** The list of foods of the statistics screen *)

Section FoodList.

Context {A : Type} (before : A -> A -> bool).



Context (R : relation A) `{!Transitive R}.
Hypothesis before_sound : forall x y, before x y = true -> R x y.
Hypothesis before_total : forall x y, before x y = false -> R y x.




End FoodList.

Section Includes.




End Includes.



Example filteredFoodData_scenario :
  Stats.filteredFoodData (fun _ _ => 0)
    (map_to_list (Stats.foodMoodCorrelations scenarioStore)) "PIZ"
    Stats.byScore
  = [("pizza"%string, Stats.mkStat 12 2 6%Q)].
Proof. vm_compute. reflexivity. Qed.

(** ** The names and the averages of the correlation *)

Section CorrelationKeys.





Lemma statOf_Some l stat : statOf l = Some stat -> l <> [].
Proof. by destruct l. Qed.

(** A sample of [food] comes from a stored day record with a set rating
    and from one of its entries, whose name lower-cases to [food]. *)
Lemma foodSamples_origin store food sample :
  In sample (foodSamples store food) ->
  exists key dayData entry,
    store !! key = Some dayData
    /\ startsWith key "dayData_" = true
    /\ truthy (moodRating dayData) = true
    /\ sample = moodRating dayData
    /\ In entry (foodEntries dayData)
    /\ toLowerCase (name entry) = food.
Proof.
  unfold foodSamples, dayRecords, daySamples, entriesOf. intros Hin.
  apply in_flat_map in Hin as ([key dayData] & Hrecord & Hin).
  apply filter_In in Hrecord as [Hstored Hprefix]. cbn [fst snd] in *.
  destruct (truthy (moodRating dayData)) eqn:Hrated; [|destruct Hin].
  apply in_map_iff in Hin as (entry & <- & Hentry).
  apply filter_In in Hentry as [Hentry Hname].
  exists key, dayData, entry. repeat split; try assumption.
  - apply elem_of_map_to_list. by apply list_elem_of_In.
  - by apply String.eqb_eq.
Qed.

End CorrelationKeys.



Section AverageBounds.

Lemma sumZ_bounds lo hi (l : list Z) :
  Forall (fun x => lo <= x <= hi) l ->
  lo * Z.of_nat (length l) <= sumZ l <= hi * Z.of_nat (length l).
Proof.
  unfold sumZ. induction 1 as [|x l Hx _ IH]; cbn [foldr length]; [lia|].
  rewrite Nat2Z.inj_succ. lia.
Qed.

(** The mean lies between the bounds of the samples. *)
Lemma mean_bounds lo hi (l : list Z) (q : Q) :
  Forall (fun x => lo <= x <= hi) l ->
  mean l = Some q ->
  (inject_Z lo <= q <= inject_Z hi)%Q.
Proof.
  intros Hall Hmean. pose proof (sumZ_bounds lo hi l Hall) as Hsum.
  destruct l as [|x l]; [discriminate|].
  unfold mean in Hmean. injection Hmean as <-.
  set (n := Z.of_nat (length (x :: l))) in *.
  assert (Hn : 0 < n) by (subst n; cbn [length]; lia).
  assert (Hnq : (0 < inject_Z n)%Q).
  { change 0%Q with (inject_Z 0). by rewrite <- Zlt_Qlt. }
  rewrite Qred_correct. split.
  - apply Qle_shift_div_l; [exact Hnq|].
    rewrite <- inject_Z_mult, <- Zle_Qle.
    unfold n, sumZ in *. cbn [length foldr] in *. lia.
  - apply Qle_shift_div_r; [exact Hnq|].
    rewrite <- inject_Z_mult, <- Zle_Qle.
    unfold n, sumZ in *. cbn [length foldr] in *. lia.
Qed.

Lemma statOf_mean l stat :
  statOf l = Some stat ->
  mean l = Some (Stats.averageScore stat)
  /\ Stats.totalScore stat = sumZ l
  /\ Stats.occurrences stat = Z.of_nat (length l).
Proof. destruct l; [discriminate|]. intros [= <-]. by repeat split. Qed.

Lemma foodSamples_inRange store food :
  ratingsInRange store ->
  Forall (fun x => 1 <= x <= 10) (foodSamples store food).
Proof.
  intros Hstore. apply Forall_forall. intros sample Hin.
  apply list_elem_of_In, foodSamples_origin in Hin
    as (key & dayData & _ & Hstored & _ & _ & -> & _).
  exact (Hstore _ _ Hstored).
Qed.

Lemma ratingsOfDays_inRange store y m first count :
  ratingsInRange store ->
  Forall (fun x => 1 <= x <= 10) (ratingsOfDays store y m first count).
Proof.
  intros Hstore. apply Forall_forall. intros rating Hin.
  unfold ratingsOfDays in Hin.
  apply list_elem_of_omap in Hin as (k & _ & Hrating).
  unfold setRating in Hrating.
  destruct (store !! Stats.dayKey (mkDate y m k 0)) as [dayData|] eqn:Hstored;
    [|discriminate].
  destruct (truthy (moodRating dayData)); [|discriminate].
  injection Hrating as <-. exact (Hstore _ _ Hstored).
Qed.

End AverageBounds.

(** X16. When every stored rating is in 1..10, every statistic of the
    correlation map counts at least one occurrence, its total lies between
    the count and ten times the count, and its average lies between 1 and
    10. *)
Theorem foodMoodCorrelations_bounds (store : Storage) (foodName : string)
    (stat : Stats.FoodMoodStat) :
  ratingsInRange store ->
  Stats.foodMoodCorrelations store !! foodName = Some stat ->
  1 <= Stats.occurrences stat
  /\ Stats.occurrences stat <= Stats.totalScore stat
     <= 10 * Stats.occurrences stat
  /\ (1 <= Stats.averageScore stat <= 10)%Q.
Proof.
  intros Hstore Hlook. rewrite foodMoodCorrelations_lookup in Hlook.
  pose proof (foodSamples_inRange store foodName Hstore) as Hall.
  pose proof (sumZ_bounds 1 10 _ Hall) as Hsum.
  pose proof (statOf_Some _ _ Hlook) as Hne.
  destruct (statOf_mean _ _ Hlook) as (Hmean & -> & ->).
  split; [|split].
  - destruct (foodSamples store foodName); [done | cbn [length]; lia].
  - lia.
  - exact (mean_bounds 1 10 _ _ Hall Hmean).
Qed.

Lemma scenarioStore_inRange : ratingsInRange scenarioStore.
Proof.
  intros key dayData. unfold scenarioStore.
  rewrite !lookup_insert. repeat case_decide.
  - intros [= <-]. unfold inRange. cbn. lia.
  - intros [= <-]. unfold inRange. cbn. lia.
  - rewrite lookup_empty. discriminate.
Qed.

Lemma foodMoodCorrelations_bounds_witness :
  let stat := Stats.mkStat 12 2 6%Q in
  ratingsInRange scenarioStore
  /\ Stats.foodMoodCorrelations scenarioStore !! "pizza"%string = Some stat
  /\ 1 <= Stats.occurrences stat
  /\ Stats.occurrences stat <= Stats.totalScore stat
     <= 10 * Stats.occurrences stat
  /\ (1 <= Stats.averageScore stat <= 10)%Q.
Proof.
  cbv zeta.
  assert (Hlook : Stats.foodMoodCorrelations scenarioStore !! "pizza"%string
                  = Some (Stats.mkStat 12 2 6%Q))
    by (vm_compute; reflexivity).
  split; [exact scenarioStore_inRange|]. split; [exact Hlook|].
  exact (foodMoodCorrelations_bounds scenarioStore "pizza"
           (Stats.mkStat 12 2 6%Q) scenarioStore_inRange Hlook).
Defined.

(** X17. When every stored rating is in 1..10, the two monthly averages
    that [calculateMoodAverages] sets on a valid date lie, where they are
    present, between 1 and 10. *)
Theorem calculateMoodAverages_bounds (store : Storage) (today : Date)
    (st st' : Stats.State) :
  ratingsInRange store ->
  validDate today ->
  Stats.calculateMoodAverages store today st = Some st' ->
  (forall average, Stats.currentAverage st' = Some average ->
                   (1 <= average <= 10)%Q)
  /\ (forall average, Stats.previousAverage st' = Some average ->
                      (1 <= average <= 10)%Q).
Proof.
  intros Hstore Hv Hrun.
  rewrite (calculateMoodAverages_spec store today st Hv) in Hrun.
  injection Hrun as <-.
  cbn [Stats.currentAverage Stats.previousAverage].
  split; intros average Hmean;
    exact (mean_bounds 1 10 _ _ (ratingsOfDays_inRange _ _ _ _ _ Hstore)
             Hmean).
Qed.

Lemma calculateMoodAverages_bounds_witness :
  let today := mkDate 2024 3 15 36000000 in
  let st := Stats.initialState today in
  ratingsInRange scenarioStore
  /\ validDate today
  /\ exists st',
       Stats.calculateMoodAverages scenarioStore today st = Some st'
       /\ (forall average, Stats.currentAverage st' = Some average ->
                           (1 <= average <= 10)%Q)
       /\ (forall average, Stats.previousAverage st' = Some average ->
                           (1 <= average <= 10)%Q).
Proof.
  cbv zeta.
  assert (Hv : validDate (mkDate 2024 3 15 36000000))
    by (vm_compute; repeat split; (discriminate || reflexivity)).
  split; [exact scenarioStore_inRange|]. split; [exact Hv|].
  eexists. split.
  - apply calculateMoodAverages_spec. exact Hv.
  - exact (calculateMoodAverages_bounds scenarioStore
             (mkDate 2024 3 15 36000000)
             (Stats.initialState (mkDate 2024 3 15 36000000)) _
             scenarioStore_inRange Hv
             (calculateMoodAverages_spec scenarioStore
                (mkDate 2024 3 15 36000000)
                (Stats.initialState (mkDate 2024 3 15 36000000)) Hv)).
Defined.

(** ** The chart *)

Section Chart.

Variable store : Storage.

Lemma plotted_days y m (days : list Z) :
  Stats.plotted
    (map (fun k => Stats.mkPoint (pad2 k)
                     (default 0 (setRating store (mkDate y m k 0)))) days)
  = omap (plottedPoint store y m) days.
Proof.
  unfold Stats.plotted, plottedPoint.
  induction days as [|k days IH]; [reflexivity|].
  cbn [map List.filter omap list_omap Stats.score].
  destruct (setRating store (mkDate y m k 0)) as [rating|]; cbn [default].
  - change (Datatypes.id rating) with rating.
    destruct (0 <? rating); by rewrite IH.
  - exact IH.
Qed.

Lemma plotted_dailyMoods d :
  Stats.plotted (Stats.dailyMoods store d)
  = omap (plottedPoint store (year d) (month d))
         (seqZ 1 (daysInMonth (year d) (month d))).
Proof. rewrite dailyMoods_spec. apply plotted_days. Qed.




End Chart.

(** X18. The chart plots, in the order of the days, exactly the days of
    the month whose record has a set rating that is positive, each with its
    two-digit label and its rating; it is drawn exactly when there is such
    a day. *)
Theorem chart_plots_rated_days (store : Storage) (d : Date) :
  let series := Stats.dailyMoods store d in
  Stats.plotted series
  = omap (plottedPoint store (year d) (month d))
         (seqZ 1 (daysInMonth (year d) (month d)))
  /\ (Stats.chartShown series = true
      <-> exists k rating,
            1 <= k <= daysInMonth (year d) (month d)
            /\ setRating store (mkDate (year d) (month d) k 0) = Some rating
            /\ 0 < rating).
Proof.
  cbv zeta. pose proof (plotted_dailyMoods store d) as Hplotted.
  split; [exact Hplotted|].
  unfold Stats.chartShown. rewrite Hplotted, Z.ltb_lt. split.
  - intros Hlen.
    destruct (omap (plottedPoint store (year d) (month d))
                (seqZ 1 (daysInMonth (year d) (month d))))
      as [|point points] eqn:Hpoints; [cbn in Hlen; lia|].
    assert (Hin : point ∈ omap (plottedPoint store (year d) (month d))
                          (seqZ 1 (daysInMonth (year d) (month d))))
      by (rewrite Hpoints; left).
    apply list_elem_of_omap in Hin as (k & Hk & Hpoint).
    apply elem_of_seqZ in Hk. unfold plottedPoint in Hpoint.
    destruct (setRating store (mkDate (year d) (month d) k 0))
      as [rating|] eqn:Hrating; [|discriminate].
    destruct (Z.ltb_spec 0 rating); [|discriminate].
    exists k, rating. repeat split; (lia || assumption).
  - intros (k & rating & Hk & Hrating & Hpos).
    assert (Hin : Stats.mkPoint (pad2 k) rating
                  ∈ omap (plottedPoint store (year d) (month d))
                      (seqZ 1 (daysInMonth (year d) (month d)))).
    { apply list_elem_of_omap. exists k. split; [apply elem_of_seqZ; lia|].
      unfold plottedPoint. rewrite Hrating.
      destruct (Z.ltb_spec 0 rating); [reflexivity | lia]. }
    destruct (omap (plottedPoint store (year d) (month d))
                (seqZ 1 (daysInMonth (year d) (month d))));
      [by apply elem_of_nil in Hin | cbn [length]; lia].
Qed.



(** ** Month navigation, continued *)

Section MonthSteps.

Lemma subMonths_one d :
  1 <= month d <= 12 ->
  let y' := if 1 <? month d then year d else year d - 1 in
  let m' := if 1 <? month d then month d - 1 else 12 in
  subMonths d 1 = mkDate y' m' (Z.min (day d) (daysInMonth y' m')) (tod d).
Proof.
  intros Hm. cbv zeta. unfold subMonths, addMonths.
  assert ((year d * 12 + (month d - 1) + - (1)) / 12
          = if 1 <? month d then year d else year d - 1) as ->.
  { destruct (Z.ltb_spec 1 (month d)); Z.div_mod_to_equations; lia. }
  assert ((year d * 12 + (month d - 1) + - (1)) mod 12 + 1
          = if 1 <? month d then month d - 1 else 12) as ->.
  { destruct (Z.ltb_spec 1 (month d)); Z.div_mod_to_equations; lia. }
  reflexivity.
Qed.

(** The first day of a month follows the last day of the month before. *)
Lemma daysFromCivil_previous_month y m :
  1 <= m <= 12 ->
  let y' := if 1 <? m then y else y - 1 in
  let m' := if 1 <? m then m - 1 else 12 in
  daysFromCivil y m 1 = daysFromCivil y' m' (daysInMonth y' m') + 1.
Proof.
  intros Hm. cbv zeta. destruct (Z.ltb_spec 1 m).
  - rewrite <- daysFromCivil_next_month by lia. f_equal. lia.
  - assert (m = 1) as -> by lia.
    change (daysInMonth (y - 1) 12) with 31.
    rewrite <- (daysFromCivil_next_year (y - 1)). f_equal. lia.
Qed.

(** The date one month before is earlier. *)
Lemma getTime_subMonths d :
  validDate d -> getTime (subMonths d 1) < getTime d.
Proof.
  intros (Hm & Hd & Ht). rewrite subMonths_one by exact Hm. cbv zeta.
  destruct d as [y m dd t]. cbn [year month day tod] in *.
  set (y' := if 1 <? m then y else y - 1).
  set (m' := if 1 <? m then m - 1 else 12).
  pose proof (daysInMonth_bounds y' m') as Hb.
  pose proof (daysFromCivil_previous_month y m Hm) as Hfirst.
  cbv zeta in Hfirst. fold y' m' in Hfirst.
  unfold getTime. cbn [year month day tod].
  replace dd with (1 + (dd - 1)) at 2 by lia.
  rewrite daysFromCivil_day, Hfirst.
  replace (daysInMonth y' m')
    with (Z.min dd (daysInMonth y' m')
          + (daysInMonth y' m' - Z.min dd (daysInMonth y' m'))) at 2 by lia.
  rewrite daysFromCivil_day. unfold msPerDay in *. lia.
Qed.

Lemma validDate_subMonths d : validDate d -> validDate (subMonths d 1).
Proof.
  intros (Hm & Hd & Ht). rewrite subMonths_one by exact Hm. cbv zeta.
  unfold validDate. cbn [year month day tod].
  pose proof (daysInMonth_bounds
                (if 1 <? month d then year d else year d - 1)
                (if 1 <? month d then month d - 1 else 12)).
  destruct (Z.ltb_spec 1 (month d)); lia.
Qed.

(** One month back and one month forth: the same month, and a day of the
    month that is not later. *)
Lemma addMonths_subMonths d :
  validDate d ->
  year (addMonths (subMonths d 1) 1) = year d
  /\ month (addMonths (subMonths d 1) 1) = month d
  /\ day (addMonths (subMonths d 1) 1) <= day d
  /\ tod (addMonths (subMonths d 1) 1) = tod d.
Proof.
  intros Hv. pose proof (validDate_subMonths d Hv) as (Hm' & _ & _).
  rewrite addMonths_one by exact Hm'. cbv zeta.
  destruct Hv as (Hm & Hd & Ht). rewrite subMonths_one by exact Hm.
  cbv zeta. cbn [year month day tod].
  destruct (Z.ltb_spec 1 (month d)).
  - destruct (Z.ltb_spec (month d - 1) 12); [|lia].
    repeat split; lia.
  - destruct (Z.ltb_spec 12 12); [lia|]. repeat split; lia.
Qed.

Lemma dailyMoods_same_month store d d' :
  year d' = year d -> month d' = month d ->
  Stats.dailyMoods store d' = Stats.dailyMoods store d.
Proof. intros Hy Hm. by rewrite !dailyMoods_spec, Hy, Hm. Qed.

Lemma handleMonthChange_next_not_later store now st :
  getTime (addMonths (Stats.selectedMonth st) 1) <= getTime now ->
  Stats.selectedMonth (Stats.handleMonthChange store Stats.next now st)
  = addMonths (Stats.selectedMonth st) 1
  /\ Stats.dailyMoodData (Stats.handleMonthChange store Stats.next now st)
     = Stats.dailyMoods store (addMonths (Stats.selectedMonth st) 1).
Proof.
  intros Hle. unfold Stats.handleMonthChange, Date_gtb. cbn [andb].
  destruct (Z.ltb_spec (getTime now)
              (getTime (addMonths (Stats.selectedMonth st) 1))); [lia|].
  by split.
Qed.

End MonthSteps.

(** X20. On a screen whose selected date is valid and not later than now,
    a previous-month request followed by a next-month request is accepted
    and selects the month it started from, on a day of the month that is
    not later, with the chart series of that month. *)
Theorem previous_then_next_month (store : Storage) (now now' : Date)
    (st : Stats.State) :
  validDate (Stats.selectedMonth st) ->
  getTime (Stats.selectedMonth st) <= getTime now' ->
  let st' :=
    Stats.handleMonthChange store Stats.next now'
      (Stats.handleMonthChange store Stats.prev now st) in
  year (Stats.selectedMonth st') = year (Stats.selectedMonth st)
  /\ month (Stats.selectedMonth st') = month (Stats.selectedMonth st)
  /\ day (Stats.selectedMonth st') <= day (Stats.selectedMonth st)
  /\ Stats.dailyMoodData st' = Stats.dailyMoods store (Stats.selectedMonth st).
Proof.
  intros Hv Hnow. cbv zeta.
  destruct (addMonths_subMonths _ Hv) as (Hy & Hm & Hd & Ht).
  set (st1 := Stats.handleMonthChange store Stats.prev now st).
  assert (Hsel1 : Stats.selectedMonth st1
                  = subMonths (Stats.selectedMonth st) 1) by reflexivity.
  assert (Hle : getTime (addMonths (Stats.selectedMonth st1) 1)
                <= getTime now').
  { rewrite Hsel1.
    destruct (addMonths (subMonths (Stats.selectedMonth st) 1) 1)
      as [y1 m1 d1 t1].
    destruct (Stats.selectedMonth st) as [y m dd t].
    cbn [year month day tod] in Hy, Hm, Hd, Ht. subst y1 m1 t1.
    rewrite !getTime_mkDate in *. unfold msPerDay in *. lia. }
  destruct (handleMonthChange_next_not_later store now' st1 Hle)
    as [-> ->].
  rewrite Hsel1. repeat split; try assumption.
  by apply dailyMoods_same_month.
Qed.

Lemma previous_then_next_month_witness :
  let now := mkDate 2024 3 31 36000000 in
  let st := Stats.initialState now in
  let st' :=
    Stats.handleMonthChange scenarioStore Stats.next now
      (Stats.handleMonthChange scenarioStore Stats.prev now st) in
  validDate (Stats.selectedMonth st)
  /\ getTime (Stats.selectedMonth st) <= getTime now
  /\ year (Stats.selectedMonth st') = year (Stats.selectedMonth st)
  /\ month (Stats.selectedMonth st') = month (Stats.selectedMonth st)
  /\ day (Stats.selectedMonth st') <= day (Stats.selectedMonth st)
  /\ Stats.dailyMoodData st'
     = Stats.dailyMoods scenarioStore (Stats.selectedMonth st).
Proof.
  cbv zeta.
  assert (Hv : validDate
            (Stats.selectedMonth
               (Stats.initialState (mkDate 2024 3 31 36000000))))
    by (vm_compute; repeat split; (discriminate || reflexivity)).
  assert (Hnow : getTime
            (Stats.selectedMonth
               (Stats.initialState (mkDate 2024 3 31 36000000)))
            <= getTime (mkDate 2024 3 31 36000000)) by (cbn; lia).
  split; [exact Hv|]. split; [exact Hnow|].
  exact (previous_then_next_month scenarioStore (mkDate 2024 3 31 36000000)
           (mkDate 2024 3 31 36000000)
           (Stats.initialState (mkDate 2024 3 31 36000000)) Hv Hnow).
Defined.

(** X21. A month request never leaves the screen on a date later than
    now: from a valid selected date that is not later than now, the
    selected date after the request, accepted or not, is not later than
    now. *)
Theorem handleMonthChange_never_future (store : Storage)
    (direction : Stats.Direction) (now : Date) (st : Stats.State) :
  validDate (Stats.selectedMonth st) ->
  getTime (Stats.selectedMonth st) <= getTime now ->
  getTime (Stats.selectedMonth
             (Stats.handleMonthChange store direction now st))
  <= getTime now.
Proof.
  intros Hv Hnow. destruct direction.
  - change (Stats.selectedMonth
              (Stats.handleMonthChange store Stats.prev now st))
      with (subMonths (Stats.selectedMonth st) 1).
    pose proof (getTime_subMonths _ Hv). lia.
  - destruct (handleMonthChange_next_accepted store now st) as [->|[-> Hle]];
      assumption.
Qed.

Lemma handleMonthChange_never_future_witness :
  let now := mkDate 2024 3 31 36000000 in
  let st := Stats.initialState now in
  validDate (Stats.selectedMonth st)
  /\ getTime (Stats.selectedMonth st) <= getTime now
  /\ getTime (Stats.selectedMonth
                (Stats.handleMonthChange scenarioStore Stats.prev now st))
     <= getTime now.
Proof.
  cbv zeta.
  assert (Hv : validDate
            (Stats.selectedMonth
               (Stats.initialState (mkDate 2024 3 31 36000000))))
    by (vm_compute; repeat split; (discriminate || reflexivity)).
  assert (Hnow : getTime
            (Stats.selectedMonth
               (Stats.initialState (mkDate 2024 3 31 36000000)))
            <= getTime (mkDate 2024 3 31 36000000)) by (cbn; lia).
  split; [exact Hv|]. split; [exact Hnow|].
  exact (handleMonthChange_never_future scenarioStore Stats.prev
           (mkDate 2024 3 31 36000000)
           (Stats.initialState (mkDate 2024 3 31 36000000)) Hv Hnow).
Defined.

Section CurrentMonth.


End CurrentMonth.



(** ** The trend *)

Section Trend.

Lemma classify_present (c p : Q) (old : option Stats.Trend) :
  (classify (Some c) (Some p) old = Some Stats.up <-> (p < c)%Q)
  /\ (classify (Some c) (Some p) old = Some Stats.down <-> (c < p)%Q)
  /\ (classify (Some c) (Some p) old = Some Stats.same <-> (c == p)%Q).
Proof.
  unfold classify.
  destruct (Qle_bool c p) eqn:Hcp; destruct (Qle_bool p c) eqn:Hpc;
    cbn [negb];
    try (apply Qle_bool_iff in Hcp); try (apply Qle_bool_iff in Hpc);
    try (assert (~ (c <= p)%Q) as Hncp
           by (rewrite <- Qle_bool_iff; congruence));
    try (assert (~ (p <= c)%Q) as Hnpc
           by (rewrite <- Qle_bool_iff; congruence));
    repeat split; intros H; try discriminate; try reflexivity; try lra.
Qed.

Lemma classify_idempotent c p old :
  classify c p (classify c p old) = classify c p old.
Proof. by destruct c, p. Qed.

End Trend.

(** X23. On a screen that holds no trend yet, on a valid date: the
    computation returns; the trend it sets is absent exactly when one of
    the two averages is absent; and when both are present it is [up]
    exactly when the current average is greater, [down] exactly when it is
    smaller, and [same] exactly when the two are equal. *)
Theorem first_trend (store : Storage) (today : Date) (st : Stats.State) :
  validDate today ->
  Stats.trend st = None ->
  exists st',
    Stats.calculateMoodAverages store today st = Some st'
    /\ (Stats.trend st' = None
        <-> Stats.currentAverage st' = None
            \/ Stats.previousAverage st' = None)
    /\ forall c p,
         Stats.currentAverage st' = Some c ->
         Stats.previousAverage st' = Some p ->
         (Stats.trend st' = Some Stats.up <-> (p < c)%Q)
         /\ (Stats.trend st' = Some Stats.down <-> (c < p)%Q)
         /\ (Stats.trend st' = Some Stats.same <-> (c == p)%Q).
Proof.
  intros Hv Hfresh. eexists. split.
  { apply calculateMoodAverages_spec. exact Hv. }
  cbn [Stats.trend Stats.currentAverage Stats.previousAverage].
  rewrite Hfresh. split.
  - destruct (mean _) as [c|], (mean _) as [p|]; cbn [classify];
      try (split; [intros _; by (left + right) | reflexivity]).
    split; [|intros [H|H]; discriminate].
    unfold classify. destruct (negb _); [discriminate|].
    destruct (negb _); discriminate.
  - intros c p -> ->. apply classify_present.
Qed.

Lemma first_trend_witness :
  let today := mkDate 2024 3 31 36000000 in
  let st := Stats.initialState today in
  validDate today /\ Stats.trend st = None
  /\ exists st',
       Stats.calculateMoodAverages twoMonthStore today st = Some st'
       /\ (Stats.trend st' = None
           <-> Stats.currentAverage st' = None
               \/ Stats.previousAverage st' = None)
       /\ forall c p,
            Stats.currentAverage st' = Some c ->
            Stats.previousAverage st' = Some p ->
            (Stats.trend st' = Some Stats.up <-> (p < c)%Q)
            /\ (Stats.trend st' = Some Stats.down <-> (c < p)%Q)
            /\ (Stats.trend st' = Some Stats.same <-> (c == p)%Q).
Proof.
  cbv zeta.
  assert (Hv : validDate (mkDate 2024 3 31 36000000))
    by (vm_compute; repeat split; (discriminate || reflexivity)).
  split; [exact Hv|]. split; [reflexivity|].
  exact (first_trend twoMonthStore (mkDate 2024 3 31 36000000)
           (Stats.initialState (mkDate 2024 3 31 36000000)) Hv eq_refl).
Defined.

(** X24. Computing again on the same store and the same valid date
    changes nothing: the state that [calculateMoodAverages] returns is a
    fixed point of it. *)
Theorem calculateMoodAverages_again (store : Storage) (today : Date)
    (st st' : Stats.State) :
  validDate today ->
  Stats.calculateMoodAverages store today st = Some st' ->
  Stats.calculateMoodAverages store today st' = Some st'.
Proof.
  intros Hv Hrun.
  rewrite (calculateMoodAverages_spec store today st Hv) in Hrun.
  injection Hrun as <-.
  rewrite calculateMoodAverages_spec by exact Hv.
  cbn [Stats.trend Stats.selectedMonth]. by rewrite classify_idempotent.
Qed.

Lemma calculateMoodAverages_again_witness :
  let today := mkDate 2024 3 31 36000000 in
  validDate today
  /\ exists st',
       Stats.calculateMoodAverages twoMonthStore today
         (Stats.initialState today) = Some st'
       /\ Stats.calculateMoodAverages twoMonthStore today st' = Some st'.
Proof.
  cbv zeta.
  assert (Hv : validDate (mkDate 2024 3 31 36000000))
    by (vm_compute; repeat split; (discriminate || reflexivity)).
  split; [exact Hv|]. eexists. split.
  - apply calculateMoodAverages_spec. exact Hv.
  - exact (calculateMoodAverages_again twoMonthStore
             (mkDate 2024 3 31 36000000)
             (Stats.initialState (mkDate 2024 3 31 36000000)) _ Hv
             (calculateMoodAverages_spec twoMonthStore
                (mkDate 2024 3 31 36000000)
                (Stats.initialState (mkDate 2024 3 31 36000000)) Hv)).
Defined.
